(** * TTControl: the DDS waveform generator, the motor controller, the
    settings store and the error handler, embedded in Rocq.

    The firmware is C++ for an RP2040.  Integers are modelled as [Z] with the
    wrap-around of their C type written out, [float] and [double] as IEEE-754
    binary32 and binary64 values over the Standard Library's executable
    [spec_float] (round to nearest even, as the target's soft-float library),
    GPIO levels and the LittleFS file table as finite maps. *)

From Stdlib Require Import ZArith Bool List Lia.
From Stdlib Require Import Floats.SpecFloat.
From stdpp Require Import base option list gmap strings pretty.
From coqutil Require Import Datatypes.RecordSetters.
Import TriangleBracketNotations.

Local Open Scope Z_scope.

(** ** Machine integers *)

Module MachInt.

Definition u8 (z : Z) : Z := z mod 2 ^ 8.
Definition u16 (z : Z) : Z := z mod 2 ^ 16.
Definition u32 (z : Z) : Z := z mod 2 ^ 32.

(** Two's complement reading of the low [w] bits. *)
Definition swrap (w z : Z) : Z := (z + 2 ^ (w - 1)) mod 2 ^ w - 2 ^ (w - 1).
Definition i16 (z : Z) : Z := swrap 16 z.
Definition i32 (z : Z) : Z := swrap 32 z.

Definition INT32_MAX : Z := 2 ^ 31 - 1.
Definition INT32_MIN : Z := - 2 ^ 31.
Definition UINT32_MAX : Z := 2 ^ 32 - 1.

End MachInt.
Export MachInt.

(** ** Floating point

    [float] is binary32 (24-bit significand), [double] is binary64.  Every
    value is kept canonical by building it through the rounding functions of
    [SpecFloat]. *)

Module FP.

Section Format.
Variables prec emax : Z.

(** Nearest value of the format to the integer [z]. *)
Definition of_Z (z : Z) : spec_float := binary_normalize prec emax z 0 false.

(** Nearest value of the format to the rational [n / d], [d > 0]: the
    quotient is taken with 200 extra bits and a sticky bit, so the single
    rounding of [binary_normalize] is the correct one. *)
Definition of_ratio (n d : Z) : spec_float :=
  let q := Z.shiftl n 200 / d in
  let r := Z.shiftl n 200 mod d in
  binary_normalize prec emax (2 * q + (if r =? 0 then 0 else 1)) (-201) false.

(** Re-rounding of a value of another format. *)
Definition convert (x : spec_float) : spec_float :=
  match x with
  | S754_finite s m e => binary_normalize prec emax (cond_Zopp s (Zpos m)) e s
  | _ => x
  end.
End Format.

(** Truncation toward zero of a finite value. *)
Definition trunc (x : spec_float) : Z :=
  match x with
  | S754_finite s m e =>
      let a := match e with
               | Zneg p => Zpos m / 2 ^ Zpos p
               | _ => Zpos m * 2 ^ e
               end in
      cond_Zopp s a
  | _ => 0
  end.

(** Conversion to [int32_t] as the runtime does it: truncation, saturated
    at the ends of the range, NaN to 0. *)
Definition to_i32 (x : spec_float) : Z :=
  match x with
  | S754_nan => 0
  | S754_infinity s => if s then INT32_MIN else INT32_MAX
  | _ => Z.max INT32_MIN (Z.min INT32_MAX (trunc x))
  end.

(** Conversion to [uint32_t]: truncation.  For a value outside
    [0, 2^32) C++ leaves the conversion undefined; the model takes the low
    32 bits of the truncated value there (the conversion through a wider
    integer), and 0 for an infinity or a NaN. *)
Definition to_u32 (x : spec_float) : Z :=
  match x with
  | S754_nan => 0
  | S754_infinity _ => 0
  | _ => u32 (trunc x)
  end.

(** The two C types are kept apart, so that every promotion of a [float]
    operand to [double] and every rounding back is written out. *)
Variant float := F32 (x : spec_float).
Variant double := F64 (x : spec_float).

Definition f32_val (a : float) : spec_float := let 'F32 x := a in x.
Definition f64_val (a : double) : spec_float := let 'F64 x := a in x.

Definition f32_of_Z (z : Z) : float := F32 (of_Z 24 128 z).
Definition f32_add (a b : float) : float := F32 (SFadd 24 128 (f32_val a) (f32_val b)).
Definition f32_sub (a b : float) : float := F32 (SFsub 24 128 (f32_val a) (f32_val b)).
Definition f32_mul (a b : float) : float := F32 (SFmul 24 128 (f32_val a) (f32_val b)).
Definition f32_div (a b : float) : float := F32 (SFdiv 24 128 (f32_val a) (f32_val b)).
Definition f32_neg (a : float) : float := F32 (SFopp (f32_val a)).
Definition f32_to_i32 (a : float) : Z := to_i32 (f32_val a).

Definition f64_of_Z (z : Z) : double := F64 (of_Z 53 1024 z).
(** The [double] literal written [n / d] in decimal. *)
Definition f64_lit (n d : Z) : double := F64 (of_ratio 53 1024 n d).
Definition f64_add (a b : double) : double := F64 (SFadd 53 1024 (f64_val a) (f64_val b)).
Definition f64_sub (a b : double) : double := F64 (SFsub 53 1024 (f64_val a) (f64_val b)).
Definition f64_mul (a b : double) : double := F64 (SFmul 53 1024 (f64_val a) (f64_val b)).
Definition f64_div (a b : double) : double := F64 (SFdiv 53 1024 (f64_val a) (f64_val b)).
Definition f64_to_i32 (a : double) : Z := to_i32 (f64_val a).
Definition f64_to_u32 (a : double) : Z := to_u32 (f64_val a).

Definition f64_of_f32 (a : float) : double := F64 (convert 53 1024 (f32_val a)).
Definition f32_of_f64 (a : double) : float := F32 (convert 24 128 (f64_val a)).

(** A [double] literal stored in a [float]. *)
Definition f32_lit (n d : Z) : float := f32_of_f64 (f64_lit n d).

(** Comparisons; any comparison with NaN is false, [!=] is the negation of
    [==]. *)
Definition f32_lt (a b : float) : bool := SFltb (f32_val a) (f32_val b).
Definition f32_gt (a b : float) : bool := SFltb (f32_val b) (f32_val a).
Definition f32_ge (a b : float) : bool := SFleb (f32_val b) (f32_val a).
Definition f32_eq (a b : float) : bool := SFeqb (f32_val a) (f32_val b).
Definition f32_ne (a b : float) : bool := negb (SFeqb (f32_val a) (f32_val b)).
Definition f64_lt (a b : double) : bool := SFltb (f64_val a) (f64_val b).
Definition f64_gt (a b : double) : bool := SFltb (f64_val b) (f64_val a).
Definition f64_ge (a b : double) : bool := SFleb (f64_val b) (f64_val a).

Definition f32_zero : float := F32 (S754_zero false).

End FP.
Export FP.

#[global] Instance float_inhabited : Inhabited float := populate f32_zero.

(** ** libm

    [sinf] and [cos] come from the C library.  They are modelled as the
    correctly rounded value of the function, obtained from the Taylor series
    evaluated in fixed point (the arguments the firmware passes lie in
    [0, 2 pi]). *)

Module Libm.

Definition to_fix (fb : Z) (x : spec_float) : Z :=
  match x with
  | S754_finite s m e => cond_Zopp s (Z.shiftl (Zpos m) (e + fb))
  | _ => 0
  end.

(** Sum of [n] further terms of an alternating series whose term of rank
    [k] is obtained from the previous one by the factor
    [- x^2 / (k (k + 1))]; [fb] is the number of fractional bits. *)
Fixpoint series (fb : Z) (n : nat) (x2 term k acc : Z) : Z :=
  match n with
  | O => acc
  | S n' =>
      let term' := - (Z.shiftr (term * x2) fb) / (k * (k + 1)) in
      series fb n' x2 term' (k + 2) (acc + term')
  end.

Definition sin_fix (fb x : Z) : Z :=
  series fb 30 (Z.shiftr (x * x) fb) x 2 x.

Definition cos_fix (fb x : Z) : Z :=
  series fb 40 (Z.shiftr (x * x) fb) (2 ^ fb) 1 (2 ^ fb).

Definition sinf (a : float) : float :=
  match f32_val a with
  | S754_finite _ _ _ as x =>
      F32 (binary_normalize 24 128 (sin_fix 72 (to_fix 72 x)) (- 72) false)
  | S754_zero _ => a
  | _ => F32 S754_nan
  end.

Definition cos (a : double) : double :=
  match f64_val a with
  | S754_finite _ _ _ as x =>
      F64 (binary_normalize 53 1024 (cos_fix 128 (to_fix 128 x)) (- 128) false)
  | S754_zero _ => f64_of_Z 1
  | _ => F64 S754_nan
  end.

(** Arduino's [PI], a [double] literal. *)
Definition PI : double :=
  f64_lit 31415926535897932384626433832795 (10 ^ 31).

End Libm.

(** ** config.h *)

Module Config.
Definition LUT_MAX_SIZE : Z := 16384.
Definition MAX_PRESET_SLOTS : Z := 5.
Definition PIN_RELAY_STANDBY : Z := 16.
Definition PIN_MUTE_PHASE_A : Z := 17.
Definition PIN_MUTE_PHASE_B : Z := 18.
Definition PIN_MUTE_PHASE_C : Z := 19.
Definition PIN_MUTE_PHASE_D : Z := 20.
Definition SETTINGS_SCHEMA_VERSION : Z := 4.
Definition DEFAULT_PHASE_MODE : Z := 3.
Definition DEFAULT_SPEED_INDEX : Z := 0.
End Config.
Export Config.

(** ** types.h

    The enumerations that are stored in the settings as [uint8_t] or read
    back from a file are kept as their integer values. *)

Module Types.

Inductive MotorState :=
| STATE_STANDBY | STATE_STOPPED | STATE_STARTING | STATE_RUNNING | STATE_STOPPING.

Definition SPEED_33 : Z := 0.
Definition SPEED_45 : Z := 1.
Definition SPEED_78 : Z := 2.

Definition FILTER_NONE : Z := 0.
Definition FILTER_IIR : Z := 1.
Definition FILTER_FIR : Z := 2.

Definition FIR_GENTLE : Z := 0.
Definition FIR_MEDIUM : Z := 1.
Definition FIR_AGGRESSIVE : Z := 2.

Definition BRAKE_OFF : Z := 0.
Definition BRAKE_PULSE : Z := 1.
Definition BRAKE_RAMP : Z := 2.

Definition RAMP_LINEAR : Z := 0.
Definition RAMP_SCURVE : Z := 1.

Record SpeedSettings := {
  frequency : float;
  minFrequency : float;
  maxFrequency : float;
  phaseOffset : list float;
  softStartDuration : float;
  reducedAmplitude : Z;
  amplitudeDelay : Z;
  startupKick : Z;
  startupKickDuration : Z;
  startupKickRampDuration : float;
  filterType : Z;
  iirAlpha : float;
  firProfile : Z
}.

Record GlobalSettings := {
  schemaVersion : Z;
  phaseMode : Z;
  maxAmplitude : Z;
  softStartCurve : Z;
  smoothSwitching : bool;
  switchRampDuration : Z;
  brakeMode : Z;
  brakeDuration : float;
  brakePulseGap : float;
  brakeStartFreq : float;
  brakeStopFreq : float;
  relayActiveHigh : bool;
  muteRelayLinkStandby : bool;
  muteRelayLinkStartStop : bool;
  powerOnRelayDelay : Z;
  displayBrightness : Z;
  displaySleepDelay : Z;
  screensaverEnabled : bool;
  autoDimDelay : Z;
  showRuntime : bool;
  errorDisplayEnabled : bool;
  errorDisplayDuration : Z;
  autoStandbyDelay : Z;
  autoStart : bool;
  autoBoot : bool;
  pitchResetOnStop : bool;
  speeds : list SpeedSettings;
  presetNames : list string;
  totalRuntime : Z;
  reverseEncoder : bool;
  pitchStepSize : float;
  rampType : Z;
  screensaverMode : Z;
  enable78rpm : bool;
  freqDependentAmplitude : Z;
  bootSpeed : Z;
  currentSpeed : Z
}.

#[global] Instance SpeedSettings_inhabited : Inhabited SpeedSettings :=
  populate {| frequency := inhabitant; minFrequency := inhabitant;
              maxFrequency := inhabitant; phaseOffset := [];
              softStartDuration := inhabitant; reducedAmplitude := 0;
              amplitudeDelay := 0; startupKick := 0; startupKickDuration := 0;
              startupKickRampDuration := inhabitant; filterType := 0;
              iirAlpha := inhabitant; firProfile := 0 |}.

End Types.

(** ** waveform.h, waveform.cpp: the DDS engine *)

Module Waveform.

Import Types(FILTER_NONE, FILTER_IIR, FILTER_FIR,
             FIR_GENTLE, FIR_MEDIUM, FIR_AGGRESSIVE).

Definition DMA_BUFFER_SIZE : nat := 256.

Definition FIR_COEFFS_GENTLE : list float :=
  [f32_lit 0 1; f32_lit 0 1; f32_lit 1 10; f32_lit 4 10;
   f32_lit 4 10; f32_lit 1 10; f32_lit 0 1; f32_lit 0 1].
Definition FIR_COEFFS_MEDIUM : list float :=
  [f32_lit 5 100; f32_lit 5 100; f32_lit 1 10; f32_lit 3 10;
   f32_lit 3 10; f32_lit 1 10; f32_lit 5 100; f32_lit 5 100].
Definition FIR_COEFFS_AGGRESSIVE : list float :=
  [f32_lit 1 10; f32_lit 1 10; f32_lit 1 10; f32_lit 2 10;
   f32_lit 2 10; f32_lit 1 10; f32_lit 1 10; f32_lit 1 10].

Record WaveformState := {
  frequency : float;
  phaseInc : Z;
  phaseOffsets : list Z;
  amplitude : float;
  filterType : Z;
  iirAlpha : float;
  firProfile : Z
}.

(** The two parameter blocks; [_activeState] and [_pendingState] point to
    one of them each. *)
Inductive StatePtr := StateA | StateB.

Record WaveformGenerator := {
  _stateA : WaveformState;
  _stateB : WaveformState;
  _activeState : StatePtr;
  _pendingState : StatePtr;
  _enabled : bool;
  _swapPending : bool;
  _phaseAcc : list Z;
  _iirPrev : list float;
  _firBuffer : list (list float);
  _firIndex : Z;
  _lut : nat -> Z;
  _lutSize : Z;
  _lutShift : Z;
  _dmaBufferSlice0 : list (list Z);
  _dmaBufferSlice1 : list (list Z);
  _currentBufferIndex : Z
}.

Definition deref (w : WaveformGenerator) (p : StatePtr) : WaveformState :=
  match p with StateA => _stateA w | StateB => _stateB w end.

Definition assign (p : StatePtr) (f : WaveformState -> WaveformState)
    (w : WaveformGenerator) : WaveformGenerator :=
  match p with
  | StateA => w <| _stateA ::= f |>
  | StateB => w <| _stateB ::= f |>
  end.

(** The constructor.  The object has static storage, so the members the
    constructor does not write are zero.  The table [_lut] is kept as the
    map from index to entry; the array allocated with [new] is taken as
    zeros until [generateLUT] fills it. *)
Definition init : WaveformGenerator :=
  let a := {| frequency := f32_lit 50 1; phaseInc := 0;
              phaseOffsets := replicate 4 0; amplitude := f32_lit 0 1;
              filterType := FILTER_NONE; iirAlpha := f32_lit 0 1;
              firProfile := FIR_GENTLE |} in
  {| _stateA := a; _stateB := a;
     _activeState := StateA; _pendingState := StateB;
     _enabled := false; _swapPending := false;
     _phaseAcc := replicate 4 0;
     _iirPrev := replicate 4 (f32_lit 0 1);
     _firBuffer := replicate 4 (replicate 8 (f32_of_Z 0));
     _firIndex := 0;
     _lut := fun _ => 0;
     _lutSize := LUT_MAX_SIZE;
     _lutShift := 32 - Z.log2 LUT_MAX_SIZE;
     _dmaBufferSlice0 := replicate 2 (replicate DMA_BUFFER_SIZE 0);
     _dmaBufferSlice1 := replicate 2 (replicate DMA_BUFFER_SIZE 0);
     _currentBufferIndex := 0 |}.

Definition lutEntry (lutSize : Z) (i : nat) : Z :=
  let angle :=
    f32_of_f64 (f64_div (f64_mul (f64_mul (f64_lit 2 1) Libm.PI)
                                 (f64_of_Z (Z.of_nat i)))
                        (f64_of_Z lutSize)) in
  i16 (f64_to_i32 (f64_mul (f64_of_f32 (Libm.sinf angle)) (f64_lit 511 1))).

Definition generateLUT (w : WaveformGenerator) : WaveformGenerator :=
  let n := Z.to_nat (_lutSize w) in
  w <| _lut ::= (fun l i => if (i <? n)%nat then lutEntry (_lutSize w) i else l i) |>.

(** The table sample of [channel] at the master phase, interpolated and
    scaled by the amplitude. *)
Definition lutSample (channel : nat) (w : WaveformGenerator) : Z :=
  let state := deref w (_activeState w) in
  let phase := u32 ((_phaseAcc w !!! 0%nat) + (phaseOffsets state !!! channel)) in
  let index := u16 (Z.shiftr phase (_lutShift w)) in
  let frac := u16 (Z.land (Z.shiftr phase (_lutShift w - 10)) 1023) in
  let nextIndex := u16 (index + 1) in
  let nextIndex := if _lutSize w <=? nextIndex then 0 else nextIndex in
  let s1 := _lut w (Z.to_nat index) in
  let s2 := _lut w (Z.to_nat nextIndex) in
  let val := i32 (s1 + Z.shiftr ((s2 - s1) * frac) 10) in
  f32_to_i32 (f32_mul (f32_of_Z val) (amplitude state)).

(** [alpha * val + (1.0 - alpha) * prev] stored in a [float]. *)
Definition iirStep (alpha : float) (val : Z) (prev : float) : float :=
  f32_of_f64
    (f64_add (f64_of_f32 (f32_mul alpha (f32_of_Z val)))
             (f64_mul (f64_sub (f64_lit 1 1) (f64_of_f32 alpha)) (f64_of_f32 prev))).

(** The taps move up by one and the new sample enters at tap 0. *)
Definition firShift (val : Z) (buf : list float) : list float :=
  let buf := foldl (fun b i => <[i := b !!! (i - 1)%nat]> b) buf
                   [7; 6; 5; 4; 3; 2; 1]%nat in
  <[0%nat := f32_of_Z val]> buf.

Definition firSum (coeffs buf : list float) : float :=
  foldl (fun sum i => f32_add sum (f32_mul (buf !!! i) (coeffs !!! i)))
        (f32_of_Z 0) (seq 0 8).

Definition getSample (channel : nat) (w : WaveformGenerator)
    : Z * WaveformGenerator :=
  let state := deref w (_activeState w) in
  let val := lutSample channel w in
  if filterType state =? FILTER_IIR then
    let alpha := iirAlpha state in
    let out := iirStep alpha val (_iirPrev w !!! channel) in
    let w := w <| _iirPrev ::= <[channel := out]> |> in
    let val := i16 (f32_to_i32 out) in
    (i16 val, w)
  else if filterType state =? FILTER_FIR then
    let buf := firShift val (_firBuffer w !!! channel) in
    let coeffs :=
      if firProfile state =? FIR_GENTLE then FIR_COEFFS_GENTLE
      else if firProfile state =? FIR_MEDIUM then FIR_COEFFS_MEDIUM
      else FIR_COEFFS_AGGRESSIVE in
    let sum := firSum coeffs buf in
    let w := w <| _firBuffer ::= <[channel := buf]> |> in
    let val := i16 (f32_to_i32 sum) in
    (i16 val, w)
  else (i16 val, w).

Definition clamp (v : Z) : Z := if 1023 <? v then 1023 else v.

(** [samples[ch] = getSample(ch)] for the four channels. *)
Definition getSamples (w : WaveformGenerator) : list Z * WaveformGenerator :=
  foldl (fun '(samples, w) ch =>
           let '(v, w) := getSample ch w in (<[ch := v]> samples, w))
        (replicate 4 0, w) (seq 0 4).

(** The compare value of a sample: offset to the centre, as [uint16_t],
    clamped. *)
Definition compareValue (sample : Z) : Z := clamp (u16 (512 + sample)).

(** [(hi << 16) | lo] stored in a [uint32_t]. *)
Definition pack (hi lo : Z) : Z := u32 (Z.lor (Z.shiftl hi 16) lo).

(** One pass of the refill loop: entry [i] of both slices. *)
Definition fillTick (bufferIndex : nat) (state : StatePtr) (w : WaveformGenerator)
    (i : nat) : WaveformGenerator :=
  let '(samples, w) := getSamples w in
  let w := w <| _phaseAcc ::=
                  (fun a => <[0%nat := u32 ((a !!! 0%nat) + phaseInc (deref w state))]> a) |> in
  let valA := compareValue (samples !!! 0%nat) in
  let valB := compareValue (samples !!! 1%nat) in
  let valC := compareValue (samples !!! 2%nat) in
  let valD := compareValue (samples !!! 3%nat) in
  w <| _dmaBufferSlice0 ::= alter (<[i := pack valB valA]>) bufferIndex |>
    <| _dmaBufferSlice1 ::= alter (<[i := pack valD valC]>) bufferIndex |>.

Definition swapStates (w : WaveformGenerator) : WaveformGenerator :=
  if _swapPending w then
    let temp := _activeState w in
    let w := w <| _activeState := _pendingState w |> in
    let w := w <| _pendingState := temp |> in
    let w := assign (_pendingState w) (fun _ => deref w (_activeState w)) w in
    w <| _swapPending := false |>
  else w.

(** The first [n] passes of the refill loop; [state] is read once, before
    the loop. *)
Definition refillLoop (bufferIndex n : nat) (w : WaveformGenerator)
    : WaveformGenerator :=
  let state := _activeState w in
  foldl (fillTick bufferIndex state) w (seq 0 n).

Definition fillBuffer (bufferIndex : nat) (w : WaveformGenerator)
    : WaveformGenerator :=
  if negb (_enabled w) then
    foldl (fun w i =>
             w <| _dmaBufferSlice0 ::= alter (<[i := 0]>) bufferIndex |>
               <| _dmaBufferSlice1 ::= alter (<[i := 0]>) bufferIndex |>)
          w (seq 0 DMA_BUFFER_SIZE)
  else refillLoop bufferIndex DMA_BUFFER_SIZE (swapStates w).

Definition begin (w : WaveformGenerator) : WaveformGenerator :=
  fillBuffer 1 (fillBuffer 0 (generateLUT w)).

Definition phaseOffsetWord (deg : float) : Z :=
  let normalized := f64_div (f64_of_f32 deg) (f64_lit 360 1) in
  f64_to_u32 (f64_mul normalized (f64_lit 4294967296 1)).

Definition setPhaseOffsets (s : Types.SpeedSettings) (w : WaveformGenerator)
    : WaveformGenerator :=
  foldl (fun w i =>
           assign (_pendingState w)
             (fun st => st <| phaseOffsets ::=
                <[i := phaseOffsetWord (Types.phaseOffset s !!! i)]> |>) w)
        w (seq 0 4).

Definition configure (s : Types.SpeedSettings) (w : WaveformGenerator)
    : WaveformGenerator :=
  let w := assign (_pendingState w) (fun st => st <| filterType := Types.filterType s |>) w in
  let w := assign (_pendingState w) (fun st => st <| iirAlpha := Types.iirAlpha s |>) w in
  let w := assign (_pendingState w) (fun st => st <| firProfile := Types.firProfile s |>) w in
  let w := setPhaseOffsets s w in
  w <| _swapPending := true |>.

Definition phaseIncOf (freq : float) : Z :=
  let inc := f64_mul (f64_of_f32 freq) (f64_lit 8589934592 100000) in
  f64_to_u32 inc.

Definition setFrequency (freq : float) (w : WaveformGenerator)
    : WaveformGenerator :=
  let w := assign (_pendingState w) (fun st => st <| frequency := freq |>) w in
  let w := assign (_pendingState w) (fun st => st <| phaseInc := phaseIncOf freq |>) w in
  w <| _swapPending := true |>.

Definition getFrequency (w : WaveformGenerator) : float :=
  frequency (deref w (_pendingState w)).

Definition setAmplitude (amp : float) (w : WaveformGenerator)
    : WaveformGenerator :=
  let amp := if f64_lt (f64_of_f32 amp) (f64_lit 0 1) then f32_lit 0 1 else amp in
  let amp := if f64_gt (f64_of_f32 amp) (f64_lit 1 1) then f32_lit 1 1 else amp in
  let w := assign (_pendingState w) (fun st => st <| amplitude := amp |>) w in
  w <| _swapPending := true |>.

Definition updateSettings (freq : float) (s : Types.SpeedSettings)
    (w : WaveformGenerator) : WaveformGenerator :=
  let w := assign (_pendingState w) (fun st => st <| frequency := freq |>) w in
  let w := assign (_pendingState w) (fun st => st <| phaseInc := phaseIncOf freq |>) w in
  let w := assign (_pendingState w) (fun st => st <| filterType := Types.filterType s |>) w in
  let w := assign (_pendingState w) (fun st => st <| iirAlpha := Types.iirAlpha s |>) w in
  let w := assign (_pendingState w) (fun st => st <| firProfile := Types.firProfile s |>) w in
  let w := setPhaseOffsets s w in
  w <| _swapPending := true |>.

Definition setEnabled (e : bool) (w : WaveformGenerator) : WaveformGenerator :=
  w <| _enabled := e |>.

(** The refills the DMA interrupt asks for, in order; [bs] names the buffer
    of each. *)
Definition refills (bs : list nat) (w : WaveformGenerator) : WaveformGenerator :=
  foldl (fun w b => fillBuffer b w) w bs.

(** [update()]: the refill of the buffer that the DMA is not reading.
    [chan0Busy] and [chan1Busy] are what [dma_channel_is_busy] returns for
    the two channels of slice 0, [lastFilledBuffer] is the function's
    static variable; its new value is returned with the generator. *)
Definition update (chan0Busy chan1Busy : bool) (lastFilledBuffer : Z)
    (w : WaveformGenerator) : Z * WaveformGenerator :=
  if chan0Busy && negb (lastFilledBuffer =? 1) then (1, fillBuffer 1 w)
  else if chan1Busy && negb (lastFilledBuffer =? 0) then (0, fillBuffer 0 w)
  else (lastFilledBuffer, w).

(** What the setters leave as it was: the two pointers, the enable flag,
    the accumulators and the filter histories. *)
Definition sameRun (w' w : WaveformGenerator) : Prop :=
  _activeState w' = _activeState w /\ _pendingState w' = _pendingState w /\
  _enabled w' = _enabled w /\ _phaseAcc w' = _phaseAcc w /\
  _iirPrev w' = _iirPrev w /\ _firBuffer w' = _firBuffer w.

(** The sizes of the arrays of the class. *)
Definition wf (w : WaveformGenerator) : Prop :=
  length (_phaseAcc w) = 4%nat /\
  length (_iirPrev w) = 4%nat /\
  length (_firBuffer w) = 4%nat /\
  Forall (fun b => length b = 8%nat) (_firBuffer w) /\
  length (phaseOffsets (_stateA w)) = 4%nat /\
  length (phaseOffsets (_stateB w)) = 4%nat /\
  length (_dmaBufferSlice0 w) = 2%nat /\
  length (_dmaBufferSlice1 w) = 2%nat /\
  Forall (fun b => length b = DMA_BUFFER_SIZE) (_dmaBufferSlice0 w) /\
  Forall (fun b => length b = DMA_BUFFER_SIZE) (_dmaBufferSlice1 w).

#[global] Instance wf_dec w : Decision (wf w).
Proof. unfold wf. apply _. Defined.

(** The two halves of a DMA word: the compare values of channel A and of
    channel B of the slice. *)
Definition lowHalf (word : Z) : Z := Z.land word 65535.
Definition highHalf (word : Z) : Z := Z.shiftr word 16.

End Waveform.

(** ** LittleFS

    The file system is the table of its files.  [mounted_rw] is false when
    the flash refuses an open for writing (the firmware tests the handle it
    gets back). *)

Module FS.

Record File := { content : list Byte.byte; position : nat }.

(** [f.read(buf, n)]: the bytes obtained, at most [n], and the advanced
    handle; the call returns the number of bytes obtained. *)
Definition read (n : nat) (f : File) : list Byte.byte * File :=
  let bs := take n (drop (position f) (content f)) in
  (bs, f <| position ::= Nat.add (length bs) |>).

Record LittleFS := { files : gmap string (list Byte.byte); mounted_rw : bool }.

Definition exists_ (path : string) (fs : LittleFS) : bool :=
  bool_decide (is_Some (files fs !! path)).

Definition open_r (path : string) (fs : LittleFS) : option File :=
  (fun c => {| content := c; position := 0 |}) <$> files fs !! path.

(** [open(path, "w")], [write], [close]. *)
Definition write_file (path : string) (bs : list Byte.byte) (fs : LittleFS)
    : option LittleFS :=
  if mounted_rw fs then Some (fs <| files ::= <[path := bs]> |>) else None.

(** [open(path, "a")], [print], [close]. *)
Definition append_file (path : string) (bs : list Byte.byte) (fs : LittleFS)
    : option LittleFS :=
  if mounted_rw fs
  then Some (fs <| files ::= <[path := default [] (files fs !! path) ++ bs]> |>)
  else None.

Definition remove (path : string) (fs : LittleFS) : LittleFS :=
  if mounted_rw fs then fs <| files ::= delete path |> else fs.

Definition rename (from to : string) (fs : LittleFS) : LittleFS :=
  if mounted_rw fs then
    match files fs !! from with
    | Some c => fs <| files ::= (fun m => <[to := c]> (delete from m)) |>
    | None => fs
    end
  else fs.

End FS.

(** ** settings.h, settings.cpp *)

(** The legacy layouts read by the migration. *)
Module V2.
Record GlobalSettingsV2 := {
  schemaVersion : Z;
  phaseMode : Z;
  maxAmplitude : Z;
  softStartCurve : Z;
  smoothSwitching : bool;
  switchRampDuration : Z;
  brakeMode : Z;
  brakeDuration : float;
  brakePulseGap : float;
  brakeStartFreq : float;
  brakeStopFreq : float;
  relayActiveHigh : bool;
  muteRelayLinkStandby : bool;
  muteRelayLinkStartStop : bool;
  powerOnRelayDelay : Z;
  displayBrightness : Z;
  displaySleepDelay : Z;
  screensaverEnabled : bool;
  autoDimDelay : Z;
  showRuntime : bool;
  errorDisplayEnabled : bool;
  errorDisplayDuration : Z;
  autoStandbyDelay : Z;
  autoStart : bool;
  autoBoot : bool;
  pitchResetOnStop : bool;
  speeds : list Types.SpeedSettings;
  presetNames : list string;
  totalRuntime : Z;
  reverseEncoder : bool;
  pitchStepSize : float;
  rampType : Z;
  screensaverMode : Z;
  enable78rpm : bool;
  currentSpeed : Z
}.
End V2.

Module V3.
Record GlobalSettingsV3 := {
  schemaVersion : Z;
  phaseMode : Z;
  maxAmplitude : Z;
  softStartCurve : Z;
  smoothSwitching : bool;
  switchRampDuration : Z;
  brakeMode : Z;
  brakeDuration : float;
  brakePulseGap : float;
  brakeStartFreq : float;
  brakeStopFreq : float;
  relayActiveHigh : bool;
  muteRelayLinkStandby : bool;
  muteRelayLinkStartStop : bool;
  powerOnRelayDelay : Z;
  displayBrightness : Z;
  displaySleepDelay : Z;
  screensaverEnabled : bool;
  autoDimDelay : Z;
  showRuntime : bool;
  errorDisplayEnabled : bool;
  errorDisplayDuration : Z;
  autoStandbyDelay : Z;
  autoStart : bool;
  autoBoot : bool;
  pitchResetOnStop : bool;
  speeds : list Types.SpeedSettings;
  presetNames : list string;
  totalRuntime : Z;
  reverseEncoder : bool;
  pitchStepSize : float;
  rampType : Z;
  screensaverMode : Z;
  enable78rpm : bool;
  freqDependentAmplitude : Z;
  currentSpeed : Z
}.
End V3.

(** The object representation of the structs is the compiler's.  The model
    takes it as an interface: the size of each struct, the bytes [f.write]
    emits for a [GlobalSettings], and the struct a buffer of each type holds
    once [f.read] has filled it. *)
Class StructLayout := {
  sizeof_GlobalSettings : nat;
  sizeof_GlobalSettingsV2 : nat;
  sizeof_GlobalSettingsV3 : nat;
  image : Types.GlobalSettings -> list Byte.byte;
  view : list Byte.byte -> Types.GlobalSettings;
  viewV2 : list Byte.byte -> V2.GlobalSettingsV2;
  viewV3 : list Byte.byte -> V3.GlobalSettingsV3
}.

(** The layout the firmware's toolchain produces (arm-none-eabi-g++, little
    endian, members at their natural alignment, [int]-sized enumerations),
    with the padding bytes written as zero. *)
Module RefLayout.

Import Types.

#[global] Instance byte_inhabited : Inhabited Byte.byte := populate Byte.x00.

Definition byte_of_Z (z : Z) : Byte.byte :=
  default Byte.x00 (Byte.of_N (Z.to_N (z mod 256))).
Definition Z_of_byte (b : Byte.byte) : Z := Z.of_N (Byte.to_N b).

(** The bit pattern of a [float] and back. *)
Definition f32_bits (x : float) : Z :=
  match f32_val x with
  | S754_zero s => if s then 2 ^ 31 else 0
  | S754_infinity s => (if s then 2 ^ 31 else 0) + 255 * 2 ^ 23
  | S754_nan => 255 * 2 ^ 23 + 2 ^ 22
  | S754_finite s m e =>
      (if s then 2 ^ 31 else 0) +
      (if Zpos m <? 2 ^ 23 then Zpos m
       else (e + 150) * 2 ^ 23 + (Zpos m - 2 ^ 23))
  end.

Definition f32_of_bits (z : Z) : float :=
  let s := Z.testbit z 31 in
  let e := (z / 2 ^ 23) mod 256 in
  let m := z mod 2 ^ 23 in
  F32 (if e =? 0 then
         if m =? 0 then S754_zero s else S754_finite s (Z.to_pos m) (-149)
       else if e =? 255 then
         if m =? 0 then S754_infinity s else S754_nan
       else S754_finite s (Z.to_pos (m + 2 ^ 23)) (e - 150)).

(** Writers: the bytes of a member. *)
Definition put8 (z : Z) : list Byte.byte := [byte_of_Z z].
Definition putBool (b : bool) : list Byte.byte := [byte_of_Z (if b then 1 else 0)].
Definition put32 (z : Z) : list Byte.byte :=
  [byte_of_Z z; byte_of_Z (z / 2 ^ 8); byte_of_Z (z / 2 ^ 16); byte_of_Z (z / 2 ^ 24)].
Definition putF (x : float) : list Byte.byte := put32 (f32_bits x).
Definition pad (n : nat) : list Byte.byte := replicate n Byte.x00.
Definition putStr (n : nat) (s : string) : list Byte.byte :=
  let bs := take n (String.list_byte_of_string s) in bs ++ pad (n - length bs).

(** Readers: the member at an offset of the buffer. *)
Definition get8 (bs : list Byte.byte) (off : nat) : Z := Z_of_byte (bs !!! off).
Definition getBool (bs : list Byte.byte) (off : nat) : bool := negb (get8 bs off =? 0).
Definition get32 (bs : list Byte.byte) (off : nat) : Z :=
  get8 bs off + 2 ^ 8 * get8 bs (off + 1) + 2 ^ 16 * get8 bs (off + 2)
  + 2 ^ 24 * get8 bs (off + 3).
Definition getF (bs : list Byte.byte) (off : nat) : float := f32_of_bits (get32 bs off).
Fixpoint cstring (bs : list Byte.byte) : list Byte.byte :=
  match bs with
  | [] => []
  | b :: bs' => if Z_of_byte b =? 0 then [] else b :: cstring bs'
  end.
Definition getStr (n : nat) (bs : list Byte.byte) (off : nat) : string :=
  String.string_of_list_byte (cstring (take n (drop off bs))).

Definition sizeof_SpeedSettings : nat := 52.

Definition putSpeed (s : SpeedSettings) : list Byte.byte :=
  putF (frequency s) ++ putF (minFrequency s) ++ putF (maxFrequency s)
  ++ putF (phaseOffset s !!! 0%nat) ++ putF (phaseOffset s !!! 1%nat)
  ++ putF (phaseOffset s !!! 2%nat) ++ putF (phaseOffset s !!! 3%nat)
  ++ putF (softStartDuration s)
  ++ put8 (reducedAmplitude s) ++ put8 (amplitudeDelay s)
  ++ put8 (startupKick s) ++ put8 (startupKickDuration s)
  ++ putF (startupKickRampDuration s)
  ++ put8 (filterType s) ++ pad 3
  ++ putF (iirAlpha s)
  ++ put8 (firProfile s) ++ pad 3.

Definition getSpeed (bs : list Byte.byte) (off : nat) : SpeedSettings :=
  {| frequency := getF bs off;
     minFrequency := getF bs (off + 4);
     maxFrequency := getF bs (off + 8);
     phaseOffset := [getF bs (off + 12); getF bs (off + 16);
                     getF bs (off + 20); getF bs (off + 24)];
     softStartDuration := getF bs (off + 28);
     reducedAmplitude := get8 bs (off + 32);
     amplitudeDelay := get8 bs (off + 33);
     startupKick := get8 bs (off + 34);
     startupKickDuration := get8 bs (off + 35);
     startupKickRampDuration := getF bs (off + 36);
     filterType := get8 bs (off + 40);
     iirAlpha := getF bs (off + 44);
     firProfile := get8 bs (off + 48) |}.

(** The members every version of the struct starts with: offsets 0 to 302. *)
Definition putCommon (schema : Z) (g : GlobalSettings) : list Byte.byte :=
  put32 schema
  ++ put8 (phaseMode g) ++ put8 (maxAmplitude g) ++ put8 (softStartCurve g)
  ++ putBool (smoothSwitching g) ++ put8 (switchRampDuration g)
  ++ put8 (brakeMode g) ++ pad 2
  ++ putF (brakeDuration g) ++ putF (brakePulseGap g)
  ++ putF (brakeStartFreq g) ++ putF (brakeStopFreq g)
  ++ putBool (relayActiveHigh g) ++ putBool (muteRelayLinkStandby g)
  ++ putBool (muteRelayLinkStartStop g) ++ put8 (powerOnRelayDelay g)
  ++ put8 (displayBrightness g) ++ put8 (displaySleepDelay g)
  ++ putBool (screensaverEnabled g) ++ put8 (autoDimDelay g)
  ++ putBool (showRuntime g) ++ putBool (errorDisplayEnabled g)
  ++ put8 (errorDisplayDuration g) ++ put8 (autoStandbyDelay g)
  ++ putBool (autoStart g) ++ putBool (autoBoot g)
  ++ putBool (pitchResetOnStop g) ++ pad 1
  ++ putSpeed (speeds g !!! 0%nat) ++ putSpeed (speeds g !!! 1%nat)
  ++ putSpeed (speeds g !!! 2%nat)
  ++ putStr 17 (presetNames g !!! 0%nat) ++ putStr 17 (presetNames g !!! 1%nat)
  ++ putStr 17 (presetNames g !!! 2%nat) ++ putStr 17 (presetNames g !!! 3%nat)
  ++ putStr 17 (presetNames g !!! 4%nat) ++ pad 3
  ++ put32 (totalRuntime g)
  ++ putBool (reverseEncoder g) ++ pad 3
  ++ putF (pitchStepSize g)
  ++ put8 (rampType g) ++ put8 (screensaverMode g) ++ putBool (enable78rpm g).

Definition putGlobalSettings (g : GlobalSettings) : list Byte.byte :=
  putCommon (schemaVersion g) g
  ++ put8 (freqDependentAmplitude g) ++ put8 (bootSpeed g) ++ pad 3
  ++ put32 (currentSpeed g).

Definition getGlobalSettings (bs : list Byte.byte) : GlobalSettings :=
  {| schemaVersion := get32 bs 0;
     phaseMode := get8 bs 4;
     maxAmplitude := get8 bs 5;
     softStartCurve := get8 bs 6;
     smoothSwitching := getBool bs 7;
     switchRampDuration := get8 bs 8;
     brakeMode := get8 bs 9;
     brakeDuration := getF bs 12;
     brakePulseGap := getF bs 16;
     brakeStartFreq := getF bs 20;
     brakeStopFreq := getF bs 24;
     relayActiveHigh := getBool bs 28;
     muteRelayLinkStandby := getBool bs 29;
     muteRelayLinkStartStop := getBool bs 30;
     powerOnRelayDelay := get8 bs 31;
     displayBrightness := get8 bs 32;
     displaySleepDelay := get8 bs 33;
     screensaverEnabled := getBool bs 34;
     autoDimDelay := get8 bs 35;
     showRuntime := getBool bs 36;
     errorDisplayEnabled := getBool bs 37;
     errorDisplayDuration := get8 bs 38;
     autoStandbyDelay := get8 bs 39;
     autoStart := getBool bs 40;
     autoBoot := getBool bs 41;
     pitchResetOnStop := getBool bs 42;
     speeds := [getSpeed bs 44; getSpeed bs 96; getSpeed bs 148];
     presetNames := [getStr 17 bs 200; getStr 17 bs 217; getStr 17 bs 234;
                     getStr 17 bs 251; getStr 17 bs 268];
     totalRuntime := get32 bs 288;
     reverseEncoder := getBool bs 292;
     pitchStepSize := getF bs 296;
     rampType := get8 bs 300;
     screensaverMode := get8 bs 301;
     enable78rpm := getBool bs 302;
     freqDependentAmplitude := get8 bs 303;
     bootSpeed := get8 bs 304;
     currentSpeed := get32 bs 308 |}.

Definition getGlobalSettingsV2 (bs : list Byte.byte) : V2.GlobalSettingsV2 :=
  {| V2.schemaVersion := get32 bs 0;
     V2.phaseMode := get8 bs 4;
     V2.maxAmplitude := get8 bs 5;
     V2.softStartCurve := get8 bs 6;
     V2.smoothSwitching := getBool bs 7;
     V2.switchRampDuration := get8 bs 8;
     V2.brakeMode := get8 bs 9;
     V2.brakeDuration := getF bs 12;
     V2.brakePulseGap := getF bs 16;
     V2.brakeStartFreq := getF bs 20;
     V2.brakeStopFreq := getF bs 24;
     V2.relayActiveHigh := getBool bs 28;
     V2.muteRelayLinkStandby := getBool bs 29;
     V2.muteRelayLinkStartStop := getBool bs 30;
     V2.powerOnRelayDelay := get8 bs 31;
     V2.displayBrightness := get8 bs 32;
     V2.displaySleepDelay := get8 bs 33;
     V2.screensaverEnabled := getBool bs 34;
     V2.autoDimDelay := get8 bs 35;
     V2.showRuntime := getBool bs 36;
     V2.errorDisplayEnabled := getBool bs 37;
     V2.errorDisplayDuration := get8 bs 38;
     V2.autoStandbyDelay := get8 bs 39;
     V2.autoStart := getBool bs 40;
     V2.autoBoot := getBool bs 41;
     V2.pitchResetOnStop := getBool bs 42;
     V2.speeds := [getSpeed bs 44; getSpeed bs 96; getSpeed bs 148];
     V2.presetNames := [getStr 17 bs 200; getStr 17 bs 217; getStr 17 bs 234;
                        getStr 17 bs 251; getStr 17 bs 268];
     V2.totalRuntime := get32 bs 288;
     V2.reverseEncoder := getBool bs 292;
     V2.pitchStepSize := getF bs 296;
     V2.rampType := get8 bs 300;
     V2.screensaverMode := get8 bs 301;
     V2.enable78rpm := getBool bs 302;
     V2.currentSpeed := get32 bs 304 |}.

Definition getGlobalSettingsV3 (bs : list Byte.byte) : V3.GlobalSettingsV3 :=
  {| V3.schemaVersion := get32 bs 0;
     V3.phaseMode := get8 bs 4;
     V3.maxAmplitude := get8 bs 5;
     V3.softStartCurve := get8 bs 6;
     V3.smoothSwitching := getBool bs 7;
     V3.switchRampDuration := get8 bs 8;
     V3.brakeMode := get8 bs 9;
     V3.brakeDuration := getF bs 12;
     V3.brakePulseGap := getF bs 16;
     V3.brakeStartFreq := getF bs 20;
     V3.brakeStopFreq := getF bs 24;
     V3.relayActiveHigh := getBool bs 28;
     V3.muteRelayLinkStandby := getBool bs 29;
     V3.muteRelayLinkStartStop := getBool bs 30;
     V3.powerOnRelayDelay := get8 bs 31;
     V3.displayBrightness := get8 bs 32;
     V3.displaySleepDelay := get8 bs 33;
     V3.screensaverEnabled := getBool bs 34;
     V3.autoDimDelay := get8 bs 35;
     V3.showRuntime := getBool bs 36;
     V3.errorDisplayEnabled := getBool bs 37;
     V3.errorDisplayDuration := get8 bs 38;
     V3.autoStandbyDelay := get8 bs 39;
     V3.autoStart := getBool bs 40;
     V3.autoBoot := getBool bs 41;
     V3.pitchResetOnStop := getBool bs 42;
     V3.speeds := [getSpeed bs 44; getSpeed bs 96; getSpeed bs 148];
     V3.presetNames := [getStr 17 bs 200; getStr 17 bs 217; getStr 17 bs 234;
                        getStr 17 bs 251; getStr 17 bs 268];
     V3.totalRuntime := get32 bs 288;
     V3.reverseEncoder := getBool bs 292;
     V3.pitchStepSize := getF bs 296;
     V3.rampType := get8 bs 300;
     V3.screensaverMode := get8 bs 301;
     V3.enable78rpm := getBool bs 302;
     V3.freqDependentAmplitude := get8 bs 303;
     V3.currentSpeed := get32 bs 304 |}.

(** The file a version 2 firmware wrote for the settings [g]. *)
Definition putGlobalSettingsV2 (g : GlobalSettings) : list Byte.byte :=
  putCommon 2 g ++ pad 1 ++ put32 (currentSpeed g).

Definition layout : StructLayout :=
  {| sizeof_GlobalSettings := 312;
     sizeof_GlobalSettingsV2 := 308;
     sizeof_GlobalSettingsV3 := 308;
     image := putGlobalSettings;
     view := getGlobalSettings;
     viewV2 := getGlobalSettingsV2;
     viewV3 := getGlobalSettingsV3 |}.

End RefLayout.

Module Settings.

Import Types.

Record Settings := {
  _data : GlobalSettings;
  _lastRuntimeUpdate : Z;
  _sessionRuntime : Z
}.

Definition _filename : string := "/settings.bin".

(** [snprintf(path, sizeof(path), "/preset_%d.bin", slot)] *)
Definition presetPath (slot : Z) : string :=
  "/preset_" +:+ pretty slot +:+ ".bin".

Definition defaultSpeed (freq minF maxF soft : float) (reduced : Z) : SpeedSettings :=
  {| frequency := freq; minFrequency := minF; maxFrequency := maxF;
     phaseOffset := [f32_lit 0 1; f32_lit 90 1; f32_lit 120 1; f32_lit 240 1];
     softStartDuration := soft;
     reducedAmplitude := reduced; amplitudeDelay := 5;
     startupKick := 1; startupKickDuration := 1;
     startupKickRampDuration := f32_lit 1 1;
     filterType := FILTER_NONE; iirAlpha := f32_lit 5 10;
     firProfile := FIR_MEDIUM |}.

(** Every member of [_data] is assigned. *)
Definition defaults : GlobalSettings :=
  {| schemaVersion := SETTINGS_SCHEMA_VERSION;
     presetNames := (fun i => "Preset " +:+ pretty (i + 1)) <$> [0; 1; 2; 3; 4];
     phaseMode := DEFAULT_PHASE_MODE;
     maxAmplitude := 100;
     softStartCurve := 0;
     smoothSwitching := true;
     switchRampDuration := 2;
     brakeMode := BRAKE_RAMP;
     brakeDuration := f32_lit 2 1;
     brakePulseGap := f32_lit 5 10;
     brakeStartFreq := f32_lit 50 1;
     brakeStopFreq := f32_lit 0 1;
     relayActiveHigh := true;
     muteRelayLinkStandby := true;
     muteRelayLinkStartStop := true;
     powerOnRelayDelay := 2;
     autoStandbyDelay := 0;
     autoDimDelay := 0;
     autoStart := false;
     autoBoot := false;
     displaySleepDelay := 0;
     screensaverEnabled := true;
     errorDisplayEnabled := true;
     errorDisplayDuration := 10;
     showRuntime := true;
     pitchResetOnStop := true;
     currentSpeed := DEFAULT_SPEED_INDEX;
     speeds :=
       [defaultSpeed (f32_lit 50 1) (f32_lit 40 1) (f32_lit 60 1) (f32_lit 1 1) 80;
        defaultSpeed (f32_lit 675 10) (f32_lit 575 10) (f32_lit 775 10) (f32_lit 1 1) 80;
        defaultSpeed (f32_lit 1135 10) (f32_lit 100 1) (f32_lit 130 1) (f32_lit 15 10) 90];
     enable78rpm := true;
     totalRuntime := 0;
     displayBrightness := 255;
     reverseEncoder := false;
     pitchStepSize := f32_lit 1 10;
     rampType := 1;
     screensaverMode := 0;
     freqDependentAmplitude := 0;
     bootSpeed := 3 |}.

Definition setDefaults (s : Settings) : Settings := s <| _data := defaults |>.

Definition getCurrentSpeedSettings (s : Settings) : SpeedSettings :=
  speeds (_data s) !!! Z.to_nat (currentSpeed (_data s)).

(** Assignment through the reference [getCurrentSpeedSettings] returns. *)
Definition setCurrentSpeedSettings (f : SpeedSettings -> SpeedSettings)
    (s : Settings) : Settings :=
  s <| _data ::= (fun d => d <| speeds ::= alter f (Z.to_nat (currentSpeed d)) |>) |>.

Definition resetSessionRuntime (s : Settings) : Settings :=
  s <| _sessionRuntime := 0 |>.

Definition updateRuntime (now : Z) (s : Settings) : Settings :=
  if 1000 <=? u32 (now - _lastRuntimeUpdate s) then
    let seconds := u32 (now - _lastRuntimeUpdate s) / 1000 in
    s <| _lastRuntimeUpdate := now |>
      <| _sessionRuntime ::= (fun r => u32 (r + seconds)) |>
      <| _data ::= (fun d => d <| totalRuntime ::= (fun r => u32 (r + seconds)) |>) |>
  else s.

(** The two normalisation loops of [validate]; [fuel] bounds the number of
    passes of each, [None] is a loop that has not ended within it. *)
Fixpoint wrapAbove (fuel : nat) (x : float) : option float :=
  if f64_ge (f64_of_f32 x) (f64_lit 360 1) then
    match fuel with
    | O => None
    | S fuel' => wrapAbove fuel' (f32_of_f64 (f64_sub (f64_of_f32 x) (f64_lit 360 1)))
    end
  else Some x.

Fixpoint wrapBelow (fuel : nat) (x : float) : option float :=
  if f64_lt (f64_of_f32 x) (f64_lit 0 1) then
    match fuel with
    | O => None
    | S fuel' => wrapBelow fuel' (f32_of_f64 (f64_add (f64_of_f32 x) (f64_lit 360 1)))
    end
  else Some x.

Definition normalizeOffset (fuel : nat) (x : float) : option float :=
  x ← wrapAbove fuel x; wrapBelow fuel x.

(** A [for] loop over the indices [l] whose body may fail to end. *)
Definition forM {S : Type} (l : list nat) (body : nat -> S -> option S) (s : S)
    : option S :=
  foldl (fun acc i => s ← acc; body i s) (Some s) l.

Definition validateSpeed (fuel : nat) (sp : SpeedSettings) : option SpeedSettings :=
  let sp :=
    if f32_gt (minFrequency sp) (maxFrequency sp) then
      let temp := minFrequency sp in
      let sp := sp <| minFrequency := maxFrequency sp |> in
      sp <| maxFrequency := temp |>
    else sp in
  let sp := if f32_lt (frequency sp) (minFrequency sp)
            then sp <| frequency := minFrequency sp |> else sp in
  let sp := if f32_gt (frequency sp) (maxFrequency sp)
            then sp <| frequency := maxFrequency sp |> else sp in
  let sp := if f64_lt (f64_of_f32 (softStartDuration sp)) (f64_lit 0 1)
            then sp <| softStartDuration := f32_lit 0 1 |> else sp in
  forM (seq 0 4)
       (fun p sp =>
          x ← normalizeOffset fuel (phaseOffset sp !!! p);
          Some (sp <| phaseOffset ::= <[p := x]> |>))
       sp.

Section WithLayout.
Context {layout : StructLayout}.

Definition save (s : Settings) (fs : FS.LittleFS) : FS.LittleFS :=
  match FS.write_file _filename (image (_data s)) fs with
  | Some fs' => fs'
  | None => fs
  end.

Definition resetDefaults (s : Settings) (fs : FS.LittleFS)
    : Settings * FS.LittleFS :=
  let s := setDefaults s in (s, save s fs).

Definition validate (fuel : nat) (s : Settings) (fs : FS.LittleFS)
    : option (Settings * FS.LittleFS) :=
  let '(s, fs) :=
    if negb (schemaVersion (_data s) =? SETTINGS_SCHEMA_VERSION)
    then resetDefaults s fs else (s, fs) in
  (* the two enumeration values are promoted to [int] and compared *)
  let s := if SPEED_78 <? i32 (currentSpeed (_data s))
           then s <| _data ::= (fun d => d <| currentSpeed := SPEED_33 |>) |> else s in
  let s := if 100 <? maxAmplitude (_data s)
           then s <| _data ::= (fun d => d <| maxAmplitude := 100 |>) |> else s in
  s ← forM (seq 0 3)
         (fun i s =>
            sp ← validateSpeed fuel (speeds (_data s) !!! i);
            Some (s <| _data ::= (fun d => d <| speeds ::= <[i := sp]> |>) |>))
         s;
  Some (s, fs).

(** [loadFromSlot(slot, target)]: the result and the content of [target]
    afterwards.  A short read leaves the tail of [target] as it was. *)
Definition loadFromSlot (slot : Z) (target : GlobalSettings) (fs : FS.LittleFS)
    : bool * GlobalSettings :=
  let path := presetPath slot in
  if FS.exists_ path fs then
    match FS.open_r path fs with
    | Some f =>
        let '(bs, f) := FS.read sizeof_GlobalSettings f in
        if decide (length bs = sizeof_GlobalSettings) then (true, view bs)
        else (false, view (bs ++ drop (length bs) (image target)))
    | None => (false, target)
    end
  else (false, target).

Definition saveToSlot (slot : Z) (source : GlobalSettings) (fs : FS.LittleFS)
    : FS.LittleFS :=
  match FS.write_file (presetPath slot) (image source) fs with
  | Some fs' => fs'
  | None => fs
  end.

(** [temp] is the content of the uninitialised local the preset is read
    into. *)
Definition loadPreset (fuel : nat) (slot : Z) (temp : GlobalSettings)
    (s : Settings) (fs : FS.LittleFS) : option (bool * Settings * FS.LittleFS) :=
  if MAX_PRESET_SLOTS <=? slot then Some (false, s, fs)
  else
    let '(ok, temp) := loadFromSlot slot temp fs in
    if ok then
      let s := s <| _data := temp |> in
      '(s, fs) ← validate fuel s fs;
      Some (true, s, fs)
    else Some (false, s, fs).

Definition savePreset (slot : Z) (s : Settings) (fs : FS.LittleFS) : FS.LittleFS :=
  if MAX_PRESET_SLOTS <=? slot then fs else saveToSlot slot (_data s) fs.

(** [temp] is the content of the uninitialised local the source preset is
    read into. *)
Definition duplicatePreset (src dest : Z) (temp : GlobalSettings)
    (fs : FS.LittleFS) : FS.LittleFS :=
  if (MAX_PRESET_SLOTS <=? src) || (MAX_PRESET_SLOTS <=? dest) then fs
  else
    let '(ok, temp) := loadFromSlot src temp fs in
    if ok then saveToSlot dest temp fs else fs.

Definition migrate (oldVersion : Z) (f : FS.File) (s : Settings) (fs : FS.LittleFS)
    : bool * FS.File * Settings * FS.LittleFS :=
  let s := setDefaults s in
  if oldVersion =? 2 then
    let '(bs, f) := FS.read sizeof_GlobalSettingsV2 f in
    if decide (length bs = sizeof_GlobalSettingsV2) then
      let v2 := viewV2 bs in
      let d := _data s in
      let s := s <| _data :=
        {| schemaVersion := schemaVersion d;
           phaseMode := V2.phaseMode v2;
           maxAmplitude := V2.maxAmplitude v2;
           softStartCurve := V2.softStartCurve v2;
           smoothSwitching := V2.smoothSwitching v2;
           switchRampDuration := V2.switchRampDuration v2;
           brakeMode := V2.brakeMode v2;
           brakeDuration := V2.brakeDuration v2;
           brakePulseGap := V2.brakePulseGap v2;
           brakeStartFreq := V2.brakeStartFreq v2;
           brakeStopFreq := V2.brakeStopFreq v2;
           relayActiveHigh := V2.relayActiveHigh v2;
           muteRelayLinkStandby := V2.muteRelayLinkStandby v2;
           muteRelayLinkStartStop := V2.muteRelayLinkStartStop v2;
           powerOnRelayDelay := V2.powerOnRelayDelay v2;
           displayBrightness := V2.displayBrightness v2;
           displaySleepDelay := V2.displaySleepDelay v2;
           screensaverEnabled := V2.screensaverEnabled v2;
           autoDimDelay := V2.autoDimDelay v2;
           showRuntime := V2.showRuntime v2;
           errorDisplayEnabled := V2.errorDisplayEnabled v2;
           errorDisplayDuration := V2.errorDisplayDuration v2;
           autoStandbyDelay := V2.autoStandbyDelay v2;
           autoStart := V2.autoStart v2;
           autoBoot := V2.autoBoot v2;
           pitchResetOnStop := V2.pitchResetOnStop v2;
           speeds := V2.speeds v2;
           presetNames := V2.presetNames v2;
           totalRuntime := V2.totalRuntime v2;
           reverseEncoder := V2.reverseEncoder v2;
           pitchStepSize := V2.pitchStepSize v2;
           rampType := V2.rampType v2;
           screensaverMode := V2.screensaverMode v2;
           enable78rpm := V2.enable78rpm v2;
           freqDependentAmplitude := freqDependentAmplitude d;
           bootSpeed := bootSpeed d;
           currentSpeed := V2.currentSpeed v2 |} |> in
      (true, f, s, save s fs)
    else (false, f, s, fs)
  else if oldVersion =? 3 then
    let '(bs, f) := FS.read sizeof_GlobalSettingsV3 f in
    if decide (length bs = sizeof_GlobalSettingsV3) then
      let v3 := viewV3 bs in
      let d := _data s in
      let s := s <| _data :=
        {| schemaVersion := schemaVersion d;
           phaseMode := V3.phaseMode v3;
           maxAmplitude := V3.maxAmplitude v3;
           softStartCurve := V3.softStartCurve v3;
           smoothSwitching := V3.smoothSwitching v3;
           switchRampDuration := V3.switchRampDuration v3;
           brakeMode := V3.brakeMode v3;
           brakeDuration := V3.brakeDuration v3;
           brakePulseGap := V3.brakePulseGap v3;
           brakeStartFreq := V3.brakeStartFreq v3;
           brakeStopFreq := V3.brakeStopFreq v3;
           relayActiveHigh := V3.relayActiveHigh v3;
           muteRelayLinkStandby := V3.muteRelayLinkStandby v3;
           muteRelayLinkStartStop := V3.muteRelayLinkStartStop v3;
           powerOnRelayDelay := V3.powerOnRelayDelay v3;
           displayBrightness := V3.displayBrightness v3;
           displaySleepDelay := V3.displaySleepDelay v3;
           screensaverEnabled := V3.screensaverEnabled v3;
           autoDimDelay := V3.autoDimDelay v3;
           showRuntime := V3.showRuntime v3;
           errorDisplayEnabled := V3.errorDisplayEnabled v3;
           errorDisplayDuration := V3.errorDisplayDuration v3;
           autoStandbyDelay := V3.autoStandbyDelay v3;
           autoStart := V3.autoStart v3;
           autoBoot := V3.autoBoot v3;
           pitchResetOnStop := V3.pitchResetOnStop v3;
           speeds := V3.speeds v3;
           presetNames := V3.presetNames v3;
           totalRuntime := V3.totalRuntime v3;
           reverseEncoder := V3.reverseEncoder v3;
           pitchStepSize := V3.pitchStepSize v3;
           rampType := V3.rampType v3;
           screensaverMode := V3.screensaverMode v3;
           enable78rpm := V3.enable78rpm v3;
           freqDependentAmplitude := V3.freqDependentAmplitude v3;
           bootSpeed := bootSpeed d;
           currentSpeed := V3.currentSpeed v3 |} |> in
      (true, f, s, save s fs)
    else (false, f, s, fs)
  else (false, f, s, fs).

(** The schema version at the head of the file, a little-endian
    [uint32_t]. *)
Definition le32 (bs : list Byte.byte) : Z :=
  foldr (fun b acc => Z.of_N (Byte.to_N b) + 256 * acc) 0 bs.

Definition load (fuel : nat) (s : Settings) (fs : FS.LittleFS)
    : option (Settings * FS.LittleFS) :=
  let fallback s fs := Some (resetDefaults s fs) in
  if FS.exists_ _filename fs then
    match FS.open_r _filename fs with
    | Some f =>
        let '(vb, f) := FS.read 4 f in
        if decide (length vb = 4%nat) then
          let version := le32 vb in
          let f := f <| FS.position := 0%nat |> in
          if version <? SETTINGS_SCHEMA_VERSION then
            let '(ok, f, s, fs) := migrate version f s fs in
            if ok then Some (s, fs) else fallback s fs
          else if SETTINGS_SCHEMA_VERSION <? version then fallback s fs
          else
            let '(bs, f) := FS.read sizeof_GlobalSettings f in
            if decide (length bs = sizeof_GlobalSettings) then
              validate fuel (s <| _data := view bs |>) fs
            else
              fallback (s <| _data ::= (fun d => view (bs ++ drop (length bs) (image d))) |>) fs
        else fallback s fs
    | None => fallback s fs
    end
  else fallback s fs.

(** [begin]: the file system mounts, the configuration is loaded. *)
Definition begin (fuel : nat) (s : Settings) (fs : FS.LittleFS)
    : option (Settings * FS.LittleFS) :=
  load fuel s fs.

End WithLayout.

(** The object before its constructor runs (static storage), and the
    constructor. *)
Definition zeroedSpeed : SpeedSettings :=
  {| frequency := f32_zero; minFrequency := f32_zero; maxFrequency := f32_zero;
     phaseOffset := replicate 4 f32_zero; softStartDuration := f32_zero;
     reducedAmplitude := 0; amplitudeDelay := 0; startupKick := 0;
     startupKickDuration := 0; startupKickRampDuration := f32_zero;
     filterType := 0; iirAlpha := f32_zero; firProfile := 0 |}.

Definition zeroed : Settings :=
  {| _data :=
       {| schemaVersion := 0; phaseMode := 0; maxAmplitude := 0;
          softStartCurve := 0; smoothSwitching := false;
          switchRampDuration := 0; brakeMode := 0;
          brakeDuration := f32_zero; brakePulseGap := f32_zero;
          brakeStartFreq := f32_zero; brakeStopFreq := f32_zero;
          relayActiveHigh := false; muteRelayLinkStandby := false;
          muteRelayLinkStartStop := false; powerOnRelayDelay := 0;
          displayBrightness := 0; displaySleepDelay := 0;
          screensaverEnabled := false; autoDimDelay := 0;
          showRuntime := false; errorDisplayEnabled := false;
          errorDisplayDuration := 0; autoStandbyDelay := 0;
          autoStart := false; autoBoot := false; pitchResetOnStop := false;
          speeds := replicate 3 zeroedSpeed;
          presetNames := replicate 5 EmptyString;
          totalRuntime := 0; reverseEncoder := false;
          pitchStepSize := f32_zero; rampType := 0; screensaverMode := 0;
          enable78rpm := false; freqDependentAmplitude := 0; bootSpeed := 0;
          currentSpeed := 0 |};
     _lastRuntimeUpdate := 0;
     _sessionRuntime := 0 |}.

Definition construct (s : Settings) : Settings := s <| _sessionRuntime := 0 |>.

End Settings.

(** ** The firmware's global objects *)

Module App.

Record MotorController := {
  _state : Types.MotorState;
  _currentSpeedMode : Z;
  _currentFreq : float;
  _targetFreq : float;
  _currentAmp : float;
  _targetAmp : float;
  _pitchRange : Z;
  _stateStartTime : Z;
  _isKicking : bool;
  _kickEndTime : Z;
  _ampReductionStartTime : Z;
  _isReducedAmp : bool;
  _brakePulseLastToggle : Z;
  _brakePulseState : bool;
  _relaysActive : bool;
  _relayStageTime : Z;
  _relayStage : Z;
  _powerOnDelayActive : bool;
  _powerOnTime : Z;
  _isSpeedRamping : bool;
  _rampStartFreq : float;
  _rampTargetFreq : float;
  _rampStartTime : Z;
  _rampDuration : float;
  _isKickRamping : bool;
  _kickRampStartFreq : float;
  _kickRampStartTime : Z;
  _kickRampDuration : float;
  _settingsDirty : bool;
  _lastSettingsChange : Z
}.

(** The error dialog of the user interface. *)
Record UserInterface := {
  _showingError : bool;
  _errorMsg : string;
  _errorStartTime : Z;
  _errorDuration : Z
}.

Record ErrorHandler := { _criticalError : bool }.

(** [settings], [waveform], [motor], [ui], [errorHandler], the file system,
    the output level of every GPIO written so far ([true] is [HIGH]), the
    serial console and the shared status variables. *)
Record System := {
  settings : Settings.Settings;
  littleFS : FS.LittleFS;
  waveform : Waveform.WaveformGenerator;
  motor : MotorController;
  ui : UserInterface;
  errorHandler : ErrorHandler;
  gpio : gmap Z bool;
  serial : string;
  currentMotorState : Types.MotorState;
  currentFrequency : float;
  currentPitchPercent : float
}.

(** A write to a member of [settings.get()], as the menu does it through
    a pointer to the member. *)
Definition configureGlobal (f : Types.GlobalSettings -> Types.GlobalSettings) (sys : System)
    : System :=
  sys <| settings ::= (fun s => s <| Settings._data ::= f |>) |>.

(** A write to a member of the current speed profile. *)
Definition configureSpeed (f : Types.SpeedSettings -> Types.SpeedSettings) (sys : System)
    : System :=
  sys <| settings ::= Settings.setCurrentSpeedSettings f |>.

Definition HIGH : bool := true.
Definition LOW : bool := false.

(** [hal.digitalWrite(pin, value)] *)
Definition digitalWrite (pin : Z) (value : bool) (sys : System) : System :=
  sys <| gpio ::= <[pin := value]> |>.

End App.

(** ** motor.h, motor.cpp

    [now] is the value [hal.getMillis()] returns during the call. *)

Module Motor.

Import Types App.

#[global] Instance MotorState_eq_dec : EqDecision MotorState.
Proof. solve_decision. Defined.

Section WithLayout.
Context {layout : StructLayout}.

Definition M (f : MotorController -> MotorController) (sys : System) : System :=
  sys <| motor ::= f |>.
Definition W (f : Waveform.WaveformGenerator -> Waveform.WaveformGenerator)
    (sys : System) : System :=
  sys <| waveform ::= f |>.

(** [settings.get()] and [settings.getCurrentSpeedSettings()] *)
Definition cfg (sys : System) : GlobalSettings := Settings._data (settings sys).
Definition cur (sys : System) : SpeedSettings :=
  Settings.getCurrentSpeedSettings (settings sys).

(** [float elapsed = now - t], an unsigned difference converted. *)
Definition since (now t : Z) : float := f32_of_Z (u32 (now - t)).

(** [x * 1000.0] stored in a [float]. *)
Definition toMs (x : float) : float :=
  f32_of_f64 (f64_mul (f64_of_f32 x) (f64_lit 1000 1)).

(** [(float)n / 100.0] stored in a [float]. *)
Definition percent (n : Z) : float :=
  f32_of_f64 (f64_div (f64_of_f32 (f32_of_Z n)) (f64_lit 100 1)).

Definition muteLevel (activeHigh : bool) : bool := if activeHigh then LOW else HIGH.
Definition unmuteLevel (activeHigh : bool) : bool := if activeHigh then HIGH else LOW.

Definition setRelays (now : Z) (active : bool) (sys : System) : System :=
  let activeHigh := relayActiveHigh (cfg sys) in
  let '(active, sys) :=
    if _powerOnDelayActive (motor sys) then
      let delayMs := u32 (powerOnRelayDelay (cfg sys) * 1000) in
      if u32 (now - _powerOnTime (motor sys)) <? delayMs then (false, sys)
      else (active, M (fun m => m <| _powerOnDelayActive := false |>) sys)
    else (active, sys) in
  let sys :=
    if active then
      M (fun m => m <| _relaysActive := true |> <| _relayStage := 0 |>
                    <| _relayStageTime := now |>) sys
    else
      let sys := M (fun m => m <| _relaysActive := false |> <| _relayStage := 0 |>) sys in
      let sys := digitalWrite PIN_MUTE_PHASE_A (muteLevel activeHigh) sys in
      let sys := digitalWrite PIN_MUTE_PHASE_B (muteLevel activeHigh) sys in
      let sys := digitalWrite PIN_MUTE_PHASE_C (muteLevel activeHigh) sys in
      digitalWrite PIN_MUTE_PHASE_D (muteLevel activeHigh) sys in
  if muteRelayLinkStandby (cfg sys) then
    if active then digitalWrite PIN_RELAY_STANDBY (unmuteLevel activeHigh) sys
    else sys
  else sys.

Definition applySettings (sys : System) : System :=
  let s := cur sys in
  let sys := M (fun m => m <| _targetFreq := frequency s |>) sys in
  let sys := M (fun m => m <| _currentFreq := _targetFreq m |>) sys in
  let sys := sys <| currentFrequency := _currentFreq (motor sys) |> in
  W (Waveform.updateSettings (_currentFreq (motor sys)) s) sys.

Definition setPitch (percent : float) (sys : System) : System :=
  sys <| currentPitchPercent := percent |>.

Definition resetPitch (sys : System) : System :=
  sys <| currentPitchPercent := f32_lit 0 1 |>.

Definition togglePitchRange (sys : System) : System :=
  let sys := M (fun m => m <| _pitchRange ::= (fun r => i32 (r + 10)) |>) sys in
  if 50 <? _pitchRange (motor sys)
  then M (fun m => m <| _pitchRange := 10 |>) sys else sys.

(** [baseFreq * (p / 100.0)] stored in a [float]: [p] is a [float] or an
    [int] converted to [double]. *)
Definition scaled (baseFreq : float) (p : double) : float :=
  f32_of_f64 (f64_mul (f64_of_f32 baseFreq) (f64_div p (f64_lit 100 1))).

Definition adjustPitchFreq (deltaHz : float) (sys : System) : System :=
  let baseFreq := frequency (cur sys) in
  let currentPitchHz := scaled baseFreq (f64_of_f32 (currentPitchPercent sys)) in
  let newPitchHz := f32_add currentPitchHz deltaHz in
  let maxPitchHz := scaled baseFreq (f64_of_Z (_pitchRange (motor sys))) in
  let newPitchHz := if f32_gt newPitchHz maxPitchHz then maxPitchHz else newPitchHz in
  let newPitchHz := if f32_lt newPitchHz (f32_neg maxPitchHz)
                    then f32_neg maxPitchHz else newPitchHz in
  sys <| currentPitchPercent :=
           f32_of_f64 (f64_mul (f64_of_f32 (f32_div newPitchHz baseFreq))
                               (f64_lit 100 1)) |>.

Definition start (now : Z) (sys : System) : System :=
  match _state (motor sys) with
  | STATE_RUNNING | STATE_STARTING => sys
  | _ =>
      let sys := M (fun m => m <| _state := STATE_STARTING |>
                               <| _stateStartTime := now |>) sys in
      let sys := applySettings sys in
      let sys := M (fun m => m <| _targetAmp := percent (maxAmplitude (cfg sys)) |>
                               <| _currentAmp := f32_lit 0 1 |>
                               <| _isReducedAmp := false |>) sys in
      let s := cur sys in
      let sys :=
        if 1 <? startupKick s then
          let sys := M (fun m => m <| _isKicking := true |>
                                   <| _kickEndTime :=
                                        u32 (now + startupKickDuration s * 1000) |>) sys in
          W (Waveform.setFrequency
               (f32_mul (_targetFreq (motor sys)) (f32_of_Z (startupKick s)))) sys
        else
          let sys := M (fun m => m <| _isKicking := false |>) sys in
          W (Waveform.setFrequency (_targetFreq (motor sys))) sys in
      let sys := if muteRelayLinkStartStop (cfg sys)
                 then setRelays now true sys else sys in
      let sys := W (Waveform.setEnabled true) sys in
      W (Waveform.setAmplitude (f32_lit 0 1)) sys
  end.

Definition stop (now : Z) (sys : System) : System :=
  match _state (motor sys) with
  | STATE_STOPPED | STATE_STANDBY => sys
  | _ =>
      let sys := M (fun m => m <| _state := STATE_STOPPING |>
                               <| _stateStartTime := now |>) sys in
      let sys :=
        if brakeMode (cfg sys) =? BRAKE_PULSE then
          let sys := M (fun m => m <| _brakePulseState := true |>
                                   <| _brakePulseLastToggle := now |>) sys in
          let sys := W (Waveform.setFrequency (f32_neg (_targetFreq (motor sys)))) sys in
          W (Waveform.setAmplitude (_targetAmp (motor sys))) sys
        else if brakeMode (cfg sys) =? BRAKE_RAMP then
          W (Waveform.setFrequency (brakeStartFreq (cfg sys))) sys
        else sys in
      if pitchResetOnStop (cfg sys) then resetPitch sys else sys
  end.

(** Arduino's [abs] macro. *)
Definition abs (x : float) : float :=
  if f32_gt x (f32_of_Z 0) then x else f32_neg x.

(** [_targetAmp * (1.0 - (elapsed / duration))] stored in a [float]. *)
Definition rampDown (targetAmp elapsed duration : float) : float :=
  f32_of_f64 (f64_mul (f64_of_f32 targetAmp)
                (f64_sub (f64_lit 1 1) (f64_of_f32 (f32_div elapsed duration)))).

Definition handleBraking (now : Z) (sys : System) : System :=
  let duration := toMs (brakeDuration (cfg sys)) in
  let elapsed := since now (_stateStartTime (motor sys)) in
  if f32_ge elapsed duration then
    let sys := M (fun m => m <| _state := STATE_STOPPED |>
                             <| _currentAmp := f32_lit 0 1 |>) sys in
    let sys := W (Waveform.setEnabled false) sys in
    let sys := if muteRelayLinkStartStop (cfg sys)
               then setRelays now false sys else sys in
    W (Waveform.setFrequency (abs (_targetFreq (motor sys)))) sys
  else if brakeMode (cfg sys) =? BRAKE_RAMP then
    let startF := brakeStartFreq (cfg sys) in
    let stopF := brakeStopFreq (cfg sys) in
    let currentF :=
      f32_sub startF (f32_mul (f32_sub startF stopF) (f32_div elapsed duration)) in
    let sys := W (Waveform.setFrequency currentF) sys in
    let sys := M (fun m => m <| _currentAmp :=
                              rampDown (_targetAmp m) elapsed duration |>) sys in
    W (Waveform.setAmplitude (_currentAmp (motor sys))) sys
  else if brakeMode (cfg sys) =? BRAKE_PULSE then
    let gap := toMs (brakePulseGap (cfg sys)) in
    if f32_ge (since now (_brakePulseLastToggle (motor sys))) gap then
      let sys := M (fun m => m <| _brakePulseLastToggle := now |>
                               <| _brakePulseState ::= negb |>) sys in
      if _brakePulseState (motor sys)
      then W (Waveform.setAmplitude (_targetAmp (motor sys))) sys
      else W (Waveform.setAmplitude (f32_lit 0 1)) sys
    else sys
  else
    let sys := M (fun m => m <| _currentAmp :=
                              rampDown (_targetAmp m) elapsed duration |>) sys in
    W (Waveform.setAmplitude (_currentAmp (motor sys))) sys.

Definition calculateSoftStartAmp (elapsed duration : float) (sys : System) : float :=
  let t := f32_div elapsed duration in
  let t := if f64_gt (f64_of_f32 t) (f64_lit 1 1) then f32_lit 1 1 else t in
  if rampType (cfg sys) =? RAMP_SCURVE then
    f32_of_f64
      (f64_mul (f64_of_f32 (_targetAmp (motor sys)))
         (f64_mul (f64_lit 5 10)
            (f64_sub (f64_lit 1 1)
               (Libm.cos (f64_mul Libm.PI (f64_of_f32 t))))))
  else f32_mul (_targetAmp (motor sys)) t.

(** The [STATE_STARTING] case of [update]. *)
Definition updateStarting (now : Z) (sys : System) : System :=
  (* 1. startup kick *)
  let sys :=
    if _isKicking (motor sys) then
      if _kickEndTime (motor sys) <=? now then
        let sys := M (fun m => m <| _isKicking := false |>) sys in
        let s := cur sys in
        if f32_gt (startupKickRampDuration s) (f32_of_Z 0) then
          M (fun m => m <| _kickRampDuration := toMs (startupKickRampDuration s) |>
                        <| _kickRampStartTime := now |>
                        <| _kickRampStartFreq := Waveform.getFrequency (waveform sys) |>
                        <| _isKickRamping := true |>) sys
        else W (Waveform.setFrequency (_targetFreq (motor sys))) sys
      else sys
    else sys in
  (* 2. kick ramp *)
  let sys :=
    if _isKickRamping (motor sys) then
      let elapsed := since now (_kickRampStartTime (motor sys)) in
      if f32_ge elapsed (_kickRampDuration (motor sys)) then
        let sys := M (fun m => m <| _isKickRamping := false |>) sys in
        W (Waveform.setFrequency (_targetFreq (motor sys))) sys
      else
        let m := motor sys in
        let t := f32_div elapsed (_kickRampDuration m) in
        let currentF :=
          f32_sub (_kickRampStartFreq m)
                  (f32_mul (f32_sub (_kickRampStartFreq m) (_targetFreq m)) t) in
        W (Waveform.setFrequency currentF) sys
    else if negb (_isKicking (motor sys)) then
      if f32_ne (Waveform.getFrequency (waveform sys)) (_targetFreq (motor sys))
      then W (Waveform.setFrequency (_targetFreq (motor sys))) sys
      else sys
    else sys in
  (* 3. amplitude soft start *)
  let duration := toMs (softStartDuration (cur sys)) in
  let elapsed := since now (_stateStartTime (motor sys)) in
  let sys :=
    if f32_ge elapsed duration then
      M (fun m => m <| _state := STATE_RUNNING |>
                    <| _currentAmp := _targetAmp m |>
                    <| _ampReductionStartTime := now |>) sys
    else
      M (fun m => m <| _currentAmp := calculateSoftStartAmp elapsed duration sys |>) sys in
  let sys :=
    if 0 <? freqDependentAmplitude (cfg sys) then
      let fdaRatio := percent (freqDependentAmplitude (cfg sys)) in
      let targetFreq := _targetFreq (motor sys) in
      let freqRatio :=
        if f64_gt (f64_of_f32 targetFreq) (f64_lit 1 10) then
          let r := f32_div (Waveform.getFrequency (waveform sys)) targetFreq in
          let r := if f64_gt (f64_of_f32 r) (f64_lit 1 1) then f32_lit 1 1 else r in
          if f64_lt (f64_of_f32 r) (f64_lit 0 1) then f32_lit 0 1 else r
        else f32_lit 0 1 in
      let scaleFactor :=
        f32_of_f64
          (f64_add (f64_of_f32 fdaRatio)
             (f64_mul (f64_sub (f64_lit 1 1) (f64_of_f32 fdaRatio))
                      (f64_of_f32 freqRatio))) in
      M (fun m => m <| _currentAmp ::= (fun a => f32_mul a scaleFactor) |>) sys
    else sys in
  W (Waveform.setAmplitude (_currentAmp (motor sys))) sys.

(** The [STATE_RUNNING] case of [update]. *)
Definition updateRunning (now : Z) (sys : System) : System :=
  (* 1. pitch control, frequency update *)
  let baseFreq := frequency (cur sys) in
  let pitchMod := scaled baseFreq (f64_of_f32 (currentPitchPercent sys)) in
  let sys := M (fun m => m <| _targetFreq := f32_add baseFreq pitchMod |>) sys in
  let sys :=
    if f32_ne (_currentFreq (motor sys)) (_targetFreq (motor sys)) then
      let sys := M (fun m => m <| _currentFreq := _targetFreq m |>) sys in
      let sys := W (Waveform.setFrequency (_currentFreq (motor sys))) sys in
      sys <| currentFrequency := _currentFreq (motor sys) |>
    else sys in
  (* 2. reduced amplitude *)
  let sys :=
    if negb (_isReducedAmp (motor sys)) then
      let delaySec := amplitudeDelay (cur sys) in
      let delayMs := u32 (delaySec * 1000) in
      if delayMs <=? u32 (now - _ampReductionStartTime (motor sys)) then
        let reducePercent := percent (reducedAmplitude (cur sys)) in
        let sys := M (fun m => m <| _isReducedAmp := true |>
                                 <| _currentAmp := f32_mul (_targetAmp m) reducePercent |>) sys in
        W (Waveform.setAmplitude (_currentAmp (motor sys))) sys
      else sys
    else sys in
  (* 3. speed switching ramp *)
  let sys :=
    if _isSpeedRamping (motor sys) then
      let elapsed := since now (_rampStartTime (motor sys)) in
      if f32_ge elapsed (_rampDuration (motor sys)) then
        let sys := M (fun m => m <| _isSpeedRamping := false |>
                                 <| _currentFreq := _rampTargetFreq m |>) sys in
        W (Waveform.setFrequency (_currentFreq (motor sys))) sys
      else
        let m := motor sys in
        let t := f32_div elapsed (_rampDuration m) in
        let currentF :=
          f32_add (_rampStartFreq m)
                  (f32_mul (f32_sub (_rampTargetFreq m) (_rampStartFreq m)) t) in
        let sys := W (Waveform.setFrequency currentF) sys in
        M (fun m => m <| _currentFreq := currentF |>) sys
    else sys in
  (* 4. runtime counter *)
  sys <| settings ::= Settings.updateRuntime now |>.

Definition update (now : Z) (sys : System) : System :=
  let sys :=
    match _state (motor sys) with
    | STATE_STANDBY => sys
    | STATE_STOPPED => sys
    | STATE_STARTING => updateStarting now sys
    | STATE_RUNNING => updateRunning now sys
    | STATE_STOPPING => handleBraking now sys
    end in
  let sys := sys <| currentMotorState := _state (motor sys) |> in
  (* relay staggering *)
  let sys :=
    if _relaysActive (motor sys) && (_relayStage (motor sys) <? 4) then
      if 100 <? u32 (now - _relayStageTime (motor sys)) then
        let sys := M (fun m => m <| _relayStageTime := now |>
                                 <| _relayStage ::= (fun n => i32 (n + 1)) |>) sys in
        let activeHigh := relayActiveHigh (cfg sys) in
        let stage := _relayStage (motor sys) in
        let pin :=
          if stage =? 1 then PIN_MUTE_PHASE_A
          else if stage =? 2 then PIN_MUTE_PHASE_B
          else if stage =? 3 then PIN_MUTE_PHASE_C
          else if stage =? 4 then PIN_MUTE_PHASE_D
          else -1 in
        if negb (pin =? -1) then digitalWrite pin (unmuteLevel activeHigh) sys
        else sys
      else sys
    else sys in
  (* deferred settings save *)
  if _settingsDirty (motor sys) && (2000 <? u32 (now - _lastSettingsChange (motor sys)))
  then
    let sys := sys <| littleFS := Settings.save (settings sys) (littleFS sys) |> in
    M (fun m => m <| _settingsDirty := false |>) sys
  else sys.

Definition setSpeed (now : Z) (mode : Z) (sys : System) : System :=
  if _currentSpeedMode (motor sys) =? mode then sys
  else
    let sys := M (fun m => m <| _currentSpeedMode := mode |>) sys in
    let sys := applySettings sys in
    let baseFreq := frequency (cur sys) in
    let pitchMod := scaled baseFreq (f64_of_f32 (currentPitchPercent sys)) in
    let newTarget := f32_add baseFreq pitchMod in
    let sys :=
      match _state (motor sys) with
      | STATE_RUNNING =>
          if smoothSwitching (cfg sys) then
            M (fun m => m <| _isSpeedRamping := true |>
                          <| _rampStartFreq := Waveform.getFrequency (waveform sys) |>
                          <| _rampTargetFreq := newTarget |>
                          <| _rampStartTime := now |>
                          <| _rampDuration :=
                               toMs (f32_of_Z (switchRampDuration (cfg sys))) |>) sys
          else
            let sys := M (fun m => m <| _targetFreq := newTarget |>
                                     <| _currentFreq := newTarget |>) sys in
            W (Waveform.setFrequency (_currentFreq (motor sys))) sys
      | _ => M (fun m => m <| _targetFreq := newTarget |>) sys
      end in
    let sys := sys <| settings ::=
                 (fun s => s <| Settings._data ::= (fun d => d <| currentSpeed := mode |>) |>) |> in
    M (fun m => m <| _settingsDirty := true |> <| _lastSettingsChange := now |>) sys.

(** [int s = (int)_currentSpeedMode + 1], wrapped to 33 rpm; 78 rpm is
    skipped when it is disabled. *)
Definition cycleSpeed (now : Z) (sys : System) : System :=
  let s := i32 (_currentSpeedMode (motor sys) + 1) in
  let s := if SPEED_78 <? s then SPEED_33 else s in
  let s := if (s =? SPEED_78) && negb (enable78rpm (cfg sys)) then SPEED_33 else s in
  setSpeed now s sys.

(** [int s = (int)_currentSpeedMode + delta], clamped. *)
Definition adjustSpeed (now : Z) (delta : Z) (sys : System) : System :=
  let s := i32 (_currentSpeedMode (motor sys) + delta) in
  let s := if s <? SPEED_33 then SPEED_33 else s in
  let s := if SPEED_78 <? s then SPEED_78 else s in
  let s := if (s =? SPEED_78) && negb (enable78rpm (cfg sys)) then SPEED_45 else s in
  setSpeed now s sys.

Definition isRunning (sys : System) : bool :=
  match _state (motor sys) with
  | STATE_RUNNING | STATE_STARTING => true
  | _ => false
  end.

Definition toggleStartStop (now : Z) (sys : System) : System :=
  if isRunning sys then stop now sys else start now sys.

Definition toggleStandby (now : Z) (sys : System) : System :=
  let sys :=
    match _state (motor sys) with
    | STATE_STANDBY =>
        let sys := M (fun m => m <| _state := STATE_STOPPED |>) sys in
        if muteRelayLinkStandby (cfg sys) && negb (muteRelayLinkStartStop (cfg sys))
        then setRelays now true sys
        else setRelays now false sys
    | _ =>
        let sys := stop now sys in
        let sys := M (fun m => m <| _state := STATE_STANDBY |>) sys in
        let sys := if muteRelayLinkStandby (cfg sys)
                   then setRelays now false sys else sys in
        let sys := sys <| settings ::= Settings.resetSessionRuntime |> in
        sys <| littleFS := Settings.save (settings sys) (littleFS sys) |>
    end in
  sys <| currentMotorState := _state (motor sys) |>.

(** The members of an object with static storage before its constructor
    runs. *)
Definition zeroed : MotorController :=
  {| _state := STATE_STANDBY; _currentSpeedMode := 0;
     _currentFreq := f32_zero; _targetFreq := f32_zero;
     _currentAmp := f32_zero; _targetAmp := f32_zero;
     _pitchRange := 0; _stateStartTime := 0;
     _isKicking := false; _kickEndTime := 0;
     _ampReductionStartTime := 0; _isReducedAmp := false;
     _brakePulseLastToggle := 0; _brakePulseState := false;
     _relaysActive := false; _relayStageTime := 0; _relayStage := 0;
     _powerOnDelayActive := false; _powerOnTime := 0;
     _isSpeedRamping := false; _rampStartFreq := f32_zero;
     _rampTargetFreq := f32_zero; _rampStartTime := 0;
     _rampDuration := f32_zero;
     _isKickRamping := false; _kickRampStartFreq := f32_zero;
     _kickRampStartTime := 0; _kickRampDuration := f32_zero;
     _settingsDirty := false; _lastSettingsChange := 0 |}.

(** The constructor, run on [zeroed]. *)
Definition construct (now : Z) (sys : System) : System :=
  let sys := M (fun m => m <| _state := STATE_STANDBY |>) sys in
  let sys :=
    if autoBoot (cfg sys) then
      let sys := M (fun m => m <| _state := STATE_STOPPED |>) sys in
      if autoStart (cfg sys) then start now sys else sys
    else sys in
  M (fun m => m <| _currentSpeedMode := SPEED_33 |>
                <| _currentFreq := f32_lit 50 1 |>
                <| _targetFreq := f32_lit 50 1 |>
                <| _currentAmp := f32_lit 0 1 |>
                <| _targetAmp := f32_lit 0 1 |>
                <| _pitchRange := 10 |>
                <| _isSpeedRamping := false |>
                <| _isKickRamping := false |>
                <| _powerOnDelayActive := true |>
                <| _powerOnTime := now |>
                <| _settingsDirty := false |>
                <| _lastSettingsChange := 0 |>) sys.

Definition begin (now : Z) (sys : System) : System :=
  let sys := M (fun m => m <| _relaysActive := false |> <| _relayStage := 0 |>) sys in
  let sys := setRelays now false sys in
  let sys :=
    if bootSpeed (cfg sys) <=? 2
    then M (fun m => m <| _currentSpeedMode := bootSpeed (cfg sys) |>) sys
    else M (fun m => m <| _currentSpeedMode := currentSpeed (cfg sys) |>) sys in
  let sys := applySettings sys in
  if autoStart (cfg sys) then start now sys else sys.

End WithLayout.

End Motor.

(** ** ui.cpp: the error dialog *)

Module UI.

Import Types App.

Definition showError (now : Z) (msg : string) (duration : Z) (sys : System) : System :=
  let sys := sys <| ui ::= (fun u => u <| _errorMsg := msg |>
                                       <| _errorDuration := duration |>
                                       <| _errorStartTime := now |>
                                       <| _showingError := true |>) |> in
  Motor.setRelays now false sys.

End UI.

(** ** error_handler.h, error_handler.cpp *)

Module ErrorHandler.

Import Types App.

Definition ERR_NONE : Z := 0.
Definition ERR_SYSTEM_FREEZE : Z := 1.
Definition ERR_MOTOR_STALL : Z := 2.
Definition ERR_SETTINGS_CORRUPT : Z := 3.
Definition ERR_I2C_FAILURE : Z := 4.
Definition ERR_OUT_OF_MEMORY : Z := 5.

Definition CRLF : string := String (Ascii.ascii_of_nat 13) (String (Ascii.ascii_of_nat 10) EmptyString).

Definition logToFile (now : Z) (code : Z) (message : string) (fs : FS.LittleFS)
    : FS.LittleFS :=
  let fs :=
    match FS.open_r "/error.log" fs with
    | Some f =>
        let size := length (FS.content f) in
        if 10240 <? Z.of_nat size
        then FS.rename "/error.log" "/error.bak" (FS.remove "/error.bak" fs)
        else fs
    | None => fs
    end in
  let line := pretty now +:+ "," +:+ pretty code +:+ "," +:+ message +:+ CRLF in
  match FS.append_file "/error.log" (String.list_byte_of_string line) fs with
  | Some fs' => fs'
  | None => fs
  end.

Definition report (now : Z) (code : Z) (message : string) (critical : bool)
    (sys : System) : System :=
  let sys := if critical
             then sys <| errorHandler ::= (fun e => e <| _criticalError := true |>) |>
             else sys in
  (* 1. serial console *)
  let sys := sys <| serial ::=
               (fun out => out +:+ "ERROR " +:+ pretty code +:+ ": " +:+ message +:+ CRLF) |> in
  (* 2. persistent log *)
  let sys := sys <| littleFS ::= logToFile now code message |> in
  (* 3. visual alert *)
  if errorDisplayEnabled (Motor.cfg sys) then
    let duration := u32 (errorDisplayDuration (Motor.cfg sys) * 1000) in
    let duration := if critical && (duration <? 10000) then 10000 else duration in
    UI.showError now message duration sys
  else sys.

Definition hasCriticalError (sys : System) : bool :=
  _criticalError (errorHandler sys).

End ErrorHandler.

(** ** TTControl.ino: the global objects and the two [setup] functions *)

Module Sketch.

Import Types App.

Section WithLayout.
Context {layout : StructLayout}.

(** The global objects after their constructors, in the order of their
    definitions: [settings], [waveform], [motor], [ui]. *)
Definition globals (now : Z) (fs : FS.LittleFS) : System :=
  Motor.construct now
    {| settings := Settings.construct Settings.zeroed;
       littleFS := fs;
       waveform := Waveform.init;
       motor := Motor.zeroed;
       ui := {| _showingError := false; _errorMsg := EmptyString;
                _errorStartTime := 0; _errorDuration := 0 |};
       errorHandler := {| _criticalError := false |};
       gpio := ∅;
       serial := EmptyString;
       currentMotorState := STATE_STANDBY;
       currentFrequency := f32_lit 50 1;
       currentPitchPercent := f32_lit 0 1 |}.

(** Core 0: [settings.begin()], then [motor.begin()]. *)
Definition setup (fuel : nat) (now : Z) (sys : System) : option System :=
  '(s, fs) ← Settings.begin fuel (settings sys) (littleFS sys);
  Some (Motor.begin now (sys <| settings := s |> <| littleFS := fs |>)).

(** Core 1: [waveform.begin()]. *)
Definition setup1 (sys : System) : System :=
  sys <| waveform ::= Waveform.begin |>.

(** Core 1: one refill of buffer [bufferIndex] by [waveform.update()]. *)
Definition refill (bufferIndex : nat) (sys : System) : System :=
  sys <| waveform ::= Waveform.fillBuffer bufferIndex |>.

End WithLayout.

End Sketch.

(** ** The properties of the specification, as predicates on the model *)

Module Spec.

Import Types.

(** Both halves of a DMA word are 10-bit compare values. *)
Definition tenBit (word : Z) : Prop :=
  0 <= Waveform.lowHalf word <= 1023 /\ 0 <= Waveform.highHalf word <= 1023.

(** Both halves of a DMA word hold the centre compare value. *)
Definition centreWord (word : Z) : Prop :=
  Waveform.lowHalf word = 512 /\ Waveform.highHalf word = 512.

(** The exact value [n / d] of a finite [float], as a fraction. *)
Definition exact (x : float) : Z * Z :=
  match f32_val x with
  | S754_finite s m e =>
      match e with
      | Zneg p => (cond_Zopp s (Zpos m), 2 ^ Zpos p)
      | _ => (cond_Zopp s (Zpos m) * 2 ^ e, 1)
      end
  | _ => (0, 1)
  end.

(** [round (n / d)], halves away from zero for [n >= 0]. *)
Definition round (n d : Z) : Z := (2 * n + d) / (2 * d).

Definition F_PWM : Z := 50000.

(** [round (f * 2^32 / f_PWM)] *)
Definition phaseIncrement (f : float) : Z :=
  let '(n, d) := exact f in round (n * 2 ^ 32) (d * F_PWM).

(** [round (k * f * 2^32 / f_PWM) mod 2^32] *)
Definition masterPhase (k : Z) (f : float) : Z :=
  let '(n, d) := exact f in round (k * n * 2 ^ 32) (d * F_PWM) mod 2 ^ 32.

(** The members of a [GlobalSettings] that the version 2 layout has, as a
    version 2 struct of schema version [schema]. *)
Definition v2Subset (schema : Z) (g : GlobalSettings) : V2.GlobalSettingsV2 :=
  {| V2.schemaVersion := schema;
     V2.phaseMode := phaseMode g;
     V2.maxAmplitude := maxAmplitude g;
     V2.softStartCurve := softStartCurve g;
     V2.smoothSwitching := smoothSwitching g;
     V2.switchRampDuration := switchRampDuration g;
     V2.brakeMode := brakeMode g;
     V2.brakeDuration := brakeDuration g;
     V2.brakePulseGap := brakePulseGap g;
     V2.brakeStartFreq := brakeStartFreq g;
     V2.brakeStopFreq := brakeStopFreq g;
     V2.relayActiveHigh := relayActiveHigh g;
     V2.muteRelayLinkStandby := muteRelayLinkStandby g;
     V2.muteRelayLinkStartStop := muteRelayLinkStartStop g;
     V2.powerOnRelayDelay := powerOnRelayDelay g;
     V2.displayBrightness := displayBrightness g;
     V2.displaySleepDelay := displaySleepDelay g;
     V2.screensaverEnabled := screensaverEnabled g;
     V2.autoDimDelay := autoDimDelay g;
     V2.showRuntime := showRuntime g;
     V2.errorDisplayEnabled := errorDisplayEnabled g;
     V2.errorDisplayDuration := errorDisplayDuration g;
     V2.autoStandbyDelay := autoStandbyDelay g;
     V2.autoStart := autoStart g;
     V2.autoBoot := autoBoot g;
     V2.pitchResetOnStop := pitchResetOnStop g;
     V2.speeds := speeds g;
     V2.presetNames := presetNames g;
     V2.totalRuntime := totalRuntime g;
     V2.reverseEncoder := reverseEncoder g;
     V2.pitchStepSize := pitchStepSize g;
     V2.rampType := rampType g;
     V2.screensaverMode := screensaverMode g;
     V2.enable78rpm := enable78rpm g;
     V2.currentSpeed := currentSpeed g |}.

(** The four mute outputs are at the muted level of the configured
    polarity. *)
Definition allMuted (sys : App.System) : Prop :=
  let level := Motor.muteLevel (relayActiveHigh (Motor.cfg sys)) in
  App.gpio sys !! PIN_MUTE_PHASE_A = Some level /\
  App.gpio sys !! PIN_MUTE_PHASE_B = Some level /\
  App.gpio sys !! PIN_MUTE_PHASE_C = Some level /\
  App.gpio sys !! PIN_MUTE_PHASE_D = Some level.

(** [min <= nominal <= max] for a speed profile, phase offsets in
    [0, 360). *)
Definition profileOrdered (sp : SpeedSettings) : Prop :=
  SFleb (f32_val (minFrequency sp)) (f32_val (frequency sp)) = true /\
  SFleb (f32_val (frequency sp)) (f32_val (maxFrequency sp)) = true.

Definition offsetNormal (x : float) : Prop :=
  f64_ge (f64_of_f32 x) (f64_lit 0 1) = true /\
  f64_lt (f64_of_f32 x) (f64_lit 360 1) = true.

(** [10 <= f <= 3000], in Hz: the frequencies a speed profile can be set
    to. *)
Definition frequencyInRange (f : float) : Prop :=
  f32_ge f (f32_lit 10 1) = true /\ f32_ge (f32_lit 3000 1) f = true.

(** The filter histories of the four channels are zero. *)
Definition historyReset (w : Waveform.WaveformGenerator) : Prop :=
  Forall (fun x => f32_eq x f32_zero = true) (Waveform._iirPrev w) /\
  Forall (Forall (fun x => f32_eq x f32_zero = true)) (Waveform._firBuffer w).

(** The frequency lies within the limits of the speed profile. *)
Definition withinLimits (sp : SpeedSettings) (f : float) : Prop :=
  f32_ge f (minFrequency sp) = true /\ f32_ge (maxFrequency sp) f = true.

End Spec.

(** ** A bench run: the firmware powered on with a blank file system *)

Module Bench.

Import Types App.

#[local] Existing Instance RefLayout.layout.

Definition blankFS : FS.LittleFS := {| FS.files := ∅; FS.mounted_rw := true |}.

(** [motor.update()] at each of the times, in milliseconds. *)
Definition ticks (times : list Z) (sys : System) : System :=
  foldl (fun sys t => Motor.update t sys) sys times.

(** Power on at time 0. *)
Definition booted : System :=
  default (Sketch.globals 0 blankFS)
          (Sketch.setup1 <$> Sketch.setup 8 0 (Sketch.globals 0 blankFS)).

(** Wake from standby at 3.0 s, start at 3.1 s; the four mute relays
    release one by one, the soft start (1 s) ends and the motor runs. *)
Definition spinUp (sys : System) : System :=
  ticks [3250; 3400; 3550; 3700; 4200; 4300]
        (Motor.start 3100 (Motor.toggleStandby 3000 sys)).

(** The motor running with the on-screen error display switched off. *)
Definition runningSilent : System :=
  spinUp (configureGlobal (fun g => g <| errorDisplayEnabled := false |>) booted).

(** The motor running in single-phase mode with the IIR filter selected,
    and the first refill of buffer 0 after that. *)
Definition runningSinglePhase : System :=
  spinUp (configureSpeed (fun sp => sp <| filterType := FILTER_IIR |>)
            (configureGlobal (fun g => g <| phaseMode := 1 |>) booted)).

Definition refilledSinglePhase : System := Sketch.refill 0 runningSinglePhase.

(** The generator after that refill, disabled. *)
Definition disabledAfterRefill : Waveform.WaveformGenerator :=
  Waveform.setEnabled false (waveform refilledSinglePhase).

(** The filter is then changed to FIR and the settings are applied; the
    state at the start of the next refill. *)
Definition switchedToFir : Waveform.WaveformGenerator :=
  Waveform.swapStates
    (waveform (Motor.applySettings
                 (configureSpeed (fun sp => sp <| filterType := FILTER_FIR |>)
                                 refilledSinglePhase))).

(** The motor running at 33 rpm, the pitch range stepped from 10 % to
    30 % by two presses of the pitch button, the pitch set to 30 %, one
    more tick. *)
Definition pitchedUp : System :=
  Motor.update 4400
    (Motor.setPitch (f32_lit 30 1)
       (Motor.togglePitchRange (Motor.togglePitchRange (spinUp booted)))).

(** The generator enabled at 20 Hz with a zero accumulator. *)
Definition at20Hz : Waveform.WaveformGenerator :=
  Waveform.setFrequency (f32_lit 20 1) (Waveform.setEnabled true Waveform.init).

(** A configuration whose second phase offset at 33 rpm is -0.000001
    degrees. *)
Definition tinyNegativeOffset : Settings.Settings :=
  {| Settings._data :=
       Settings.defaults
         <| speeds ::= alter (fun sp => sp <| phaseOffset ::=
                                <[1%nat := f32_lit (-1) 1000000]> |>) 0%nat |>;
     Settings._lastRuntimeUpdate := 0;
     Settings._sessionRuntime := 0 |}.

(** The settings a version 2 firmware left: 45 rpm at 68 Hz selected. *)
Definition legacySettings : GlobalSettings :=
  Settings.defaults
    <| currentSpeed := SPEED_45 |>
    <| maxAmplitude := 90 |>
    <| speeds ::= alter (fun sp => sp <| frequency := f32_lit 68 1 |>) 1%nat |>.

Definition legacyFS : FS.LittleFS :=
  {| FS.files := {[ Settings._filename := RefLayout.putGlobalSettingsV2 legacySettings ]};
     FS.mounted_rw := true |}.

Definition legacyFile : FS.File :=
  {| FS.content := RefLayout.putGlobalSettingsV2 legacySettings; FS.position := 0 |}.

(** A file system whose preset 2 was cut short after 100 bytes. *)
Definition truncatedPresetFS : FS.LittleFS :=
  {| FS.files := {[ Settings.presetPath 2 :=
                      take 100 (RefLayout.putGlobalSettings legacySettings) ]};
     FS.mounted_rw := true |}.

Definition loaded : Settings.Settings :=
  {| Settings._data := Settings.defaults;
     Settings._lastRuntimeUpdate := 0;
     Settings._sessionRuntime := 0 |}.

End Bench.

(** * Properties of the model *)

(** ** The waveform generator *)

Module WaveformFacts.

Import Waveform.

Lemma refillLoop_S b n w :
  refillLoop b (S n) w = fillTick b (_activeState w) (refillLoop b n w) n.
Proof. unfold refillLoop. rewrite seq_S, foldl_app. reflexivity. Qed.

(** getSample touches the filter histories only. *)
Lemma getSample_frame ch w :
  let w' := (getSample ch w).2 in
  _dmaBufferSlice0 w' = _dmaBufferSlice0 w /\ _dmaBufferSlice1 w' = _dmaBufferSlice1 w /\
  _phaseAcc w' = _phaseAcc w /\ _stateA w' = _stateA w /\ _stateB w' = _stateB w /\
  _activeState w' = _activeState w /\ _pendingState w' = _pendingState w /\
  _enabled w' = _enabled w /\ _swapPending w' = _swapPending w.
Proof.
  unfold getSample.
  destruct (filterType _ =? _); [cbn; tauto|].
  destruct (filterType _ =? _); cbn; tauto.
Qed.

Lemma getSamples_frame w :
  let w' := (getSamples w).2 in
  _dmaBufferSlice0 w' = _dmaBufferSlice0 w /\ _dmaBufferSlice1 w' = _dmaBufferSlice1 w /\
  _phaseAcc w' = _phaseAcc w /\ _stateA w' = _stateA w /\ _stateB w' = _stateB w /\
  _activeState w' = _activeState w /\ _pendingState w' = _pendingState w /\
  _enabled w' = _enabled w /\ _swapPending w' = _swapPending w.
Proof.
  unfold getSamples. cbn [seq foldl].
  repeat match goal with
  | |- context [getSample ?c ?x] =>
      let H := fresh in
      pose proof (getSample_frame c x) as H; cbn zeta in H;
      destruct (getSample c x) as [? ?]; cbn [snd] in H
  end.
  cbn [snd]. intuition congruence.
Qed.


Lemma fillTick_spec b st w i :
  let samples := (getSamples w).1 in
  let w1 := (getSamples w).2 in
  let w' := fillTick b st w i in
  _dmaBufferSlice0 w' =
    alter (<[i := pack (compareValue (samples !!! 1%nat)) (compareValue (samples !!! 0%nat))]>)
          b (_dmaBufferSlice0 w) /\
  _dmaBufferSlice1 w' =
    alter (<[i := pack (compareValue (samples !!! 3%nat)) (compareValue (samples !!! 2%nat))]>)
          b (_dmaBufferSlice1 w) /\
  _phaseAcc w' = <[0%nat := u32 ((_phaseAcc w !!! 0%nat) + phaseInc (deref w st))]> (_phaseAcc w) /\
  _iirPrev w' = _iirPrev w1 /\ _firBuffer w' = _firBuffer w1 /\
  _stateA w' = _stateA w /\ _stateB w' = _stateB w /\
  _activeState w' = _activeState w /\ _pendingState w' = _pendingState w /\
  _enabled w' = _enabled w /\ _swapPending w' = _swapPending w.
Proof.
  intros samples w1 w'. subst samples w1 w'. unfold fillTick.
  pose proof (getSamples_frame w) as H. cbn zeta in H.
  destruct (getSamples w) as [samples w1]. cbn [fst snd] in *.
  destruct w1; cbn in H |- *.
  destruct H as (-> & -> & -> & HA & HB & -> & -> & -> & ->).
  repeat split; auto.
  f_equal. f_equal. f_equal. destruct st; cbn; congruence.
Qed.

Lemma refillLoop_frame b n w :
  let w' := refillLoop b n w in
  _stateA w' = _stateA w /\ _stateB w' = _stateB w /\
  _activeState w' = _activeState w /\ _pendingState w' = _pendingState w /\
  _enabled w' = _enabled w /\ _swapPending w' = _swapPending w.
Proof.
  induction n as [|n IH]; [cbn; tauto|].
  cbn zeta in *. rewrite refillLoop_S.
  pose proof (fillTick_spec b (_activeState w) (refillLoop b n w) n) as H.
  cbn zeta in H. intuition congruence.
Qed.

(** The master phase advances by the increment of the active state once per
    pass. *)
Lemma refillLoop_phase b n w :
  (0 < length (_phaseAcc w))%nat ->
  0 <= _phaseAcc w !!! 0%nat < 2 ^ 32 ->
  let w' := refillLoop b n w in
  length (_phaseAcc w') = length (_phaseAcc w) /\
  _phaseAcc w' !!! 0%nat =
    u32 ((_phaseAcc w !!! 0%nat) + Z.of_nat n * phaseInc (deref w (_activeState w))).
Proof.
  intros Hlen Hrange. induction n as [|n IH]; cbn zeta in *.
  - split; [reflexivity|]. unfold refillLoop; cbn [seq foldl].
    unfold u32. rewrite Z.mod_small; lia.
  - rewrite refillLoop_S.
    pose proof (fillTick_spec b (_activeState w) (refillLoop b n w) n) as H.
    pose proof (refillLoop_frame b n w) as F.
    cbn zeta in H, F.
    destruct H as (_ & _ & Hp & _). destruct IH as [IHl IHv].
    rewrite Hp. rewrite length_insert. split; [assumption|].
    rewrite list_lookup_total_insert_eq by lia.
    rewrite IHv.
    assert (deref (refillLoop b n w) (_activeState w) = deref w (_activeState w)) as ->.
    { unfold deref. destruct (_activeState w); intuition congruence. }
    unfold u32. rewrite Zplus_mod_idemp_l. f_equal. lia.
Qed.

(** The compare value of any sample is a 10-bit value. *)
Lemma compareValue_range s : 0 <= compareValue s <= 1023.
Proof.
  unfold compareValue, clamp, u16.
  pose proof (Z.mod_pos_bound (512 + s) (2 ^ 16) ltac:(lia)).
  destruct (1023 <? _) eqn:E; [lia|]. apply Z.ltb_ge in E. lia.
Qed.

Lemma lor_shiftl_16 hi lo :
  0 <= hi -> 0 <= lo < 2 ^ 16 -> Z.lor (Z.shiftl hi 16) lo = hi * 65536 + lo.
Proof.
  intros Hhi Hlo.
  assert (Z.land (Z.shiftl hi 16) lo = 0) as Hdisj.
  { replace lo with (Z.land lo (Z.ones 16))
      by (rewrite Z.land_ones by lia; apply Z.mod_small; lia).
    apply Z.bits_inj'. intros n Hn.
    rewrite !Z.land_spec, Z.bits_0.
    destruct (Z.lt_ge_cases n 16).
    - rewrite Z.shiftl_spec_low by lia. reflexivity.
    - rewrite Z.ones_spec_high by lia. rewrite !andb_false_r. reflexivity. }
  rewrite <- Z.lxor_lor, <- Z.add_nocarry_lxor by assumption.
  rewrite Z.shiftl_mul_pow2 by lia. reflexivity.
Qed.

Lemma pack_halves hi lo :
  0 <= hi <= 1023 -> 0 <= lo <= 1023 ->
  lowHalf (pack hi lo) = lo /\ highHalf (pack hi lo) = hi.
Proof.
  intros Hhi Hlo.
  unfold pack, lowHalf, highHalf, u32.
  rewrite lor_shiftl_16 by lia.
  rewrite (Z.mod_small _ (2 ^ 32)) by lia.
  change 65535 with (Z.ones 16). rewrite Z.land_ones, Z.shiftr_div_pow2 by lia.
  change (2 ^ 16) with 65536.
  split.
  - rewrite Z.add_comm, Z.mod_add by lia. apply Z.mod_small; lia.
  - rewrite Z.add_comm, Z.div_add by lia. rewrite Z.div_small; lia.
Qed.

(** Writing entry [n] of buffer [b] extends by one the prefix of that buffer
    whose entries satisfy [P]. *)
Lemma alter_insert_prefix (P : Z -> Prop) b n v (l : list (list Z)) :
  P v -> Forall P (take n (l !!! b)) ->
  Forall P (take (S n) (alter (<[n := v]>) b l !!! b)).
Proof.
  intros Hv Hl. rewrite list_lookup_total_alter.
  case_decide as Hb; [|rewrite list_lookup_total_alt, lookup_ge_None_2 by lia; constructor].
  destruct (decide (n < length (l !!! b))%nat) as [Hlt|Hge].
  - rewrite (take_S_r _ _ v) by (apply list_lookup_insert_eq; assumption).
    rewrite take_insert_ge by lia. apply Forall_app. split; [assumption|].
    constructor; [assumption|constructor].
  - rewrite list_insert_ge by lia.
    rewrite take_ge by lia. rewrite take_ge in Hl by lia. assumption.
Qed.

Lemma pack_tenBit s1 s0 : Spec.tenBit (pack (compareValue s1) (compareValue s0)).
Proof.
  unfold Spec.tenBit.
  pose proof (compareValue_range s1). pose proof (compareValue_range s0).
  destruct (pack_halves (compareValue s1) (compareValue s0)) as [-> ->]; auto.
Qed.

Lemma refillLoop_tenBit b n w :
  let w' := refillLoop b n w in
  Forall Spec.tenBit (take n (_dmaBufferSlice0 w' !!! b)) /\
  Forall Spec.tenBit (take n (_dmaBufferSlice1 w' !!! b)).
Proof.
  induction n as [|n IH]; cbn zeta in *.
  - split; constructor.
  - rewrite refillLoop_S.
    pose proof (fillTick_spec b (_activeState w) (refillLoop b n w) n) as H.
    cbn zeta in H. destruct H as (-> & -> & _). destruct IH as [IH0 IH1].
    split; apply alter_insert_prefix; auto using pack_tenBit.
Qed.

(** *** The array sizes are an invariant *)

Lemma Forall_insert_lookup {A} (P : A -> Prop) `{!Inhabited A} (l : list A) i (f : A -> A) :
  (forall x, P x -> P (f x)) -> Forall P l -> Forall P (<[i := f (l !!! i)]> l).
Proof.
  intros Hf Hl. destruct (decide (i < length l)%nat) as [Hlt|Hge].
  - apply Forall_insert; [assumption|]. apply Hf.
    apply (Forall_lookup_total_1 P l i); [assumption|lia].
  - rewrite list_insert_ge by lia. assumption.
Qed.

Lemma length_firShift val buf : length (firShift val buf) = length buf.
Proof. unfold firShift. cbn [foldl]. rewrite !length_insert. reflexivity. Qed.

Lemma wf_getSample ch w : wf w -> wf (getSample ch w).2.
Proof.
  unfold wf, getSample. intros H.
  destruct (filterType _ =? _); [|destruct (filterType _ =? _)]; cbn;
    rewrite ?length_insert; [tauto| |tauto].
  destruct H as (? & ? & ? & Hfb & ?). repeat split; try tauto.
  apply (Forall_insert_lookup _ _ _ (firShift (lutSample ch w))); [|assumption].
  intros x Hx. rewrite length_firShift. assumption.
Qed.

Lemma wf_getSamples w : wf w -> wf (getSamples w).2.
Proof.
  intros H. unfold getSamples. cbn [seq foldl].
  repeat match goal with
  | |- context [getSample ?c ?x] =>
      let Hw := fresh in
      assert (wf (getSample c x).2) as Hw by (apply wf_getSample; assumption);
      destruct (getSample c x) as [? ?]; cbn [snd] in Hw
  end.
  assumption.
Qed.

Lemma Forall_alter_length {A} n i j (x : A) (l : list (list A)) :
  Forall (fun b => length b = n) l -> Forall (fun b => length b = n) (alter (<[j := x]>) i l).
Proof.
  intros H. apply Forall_alter; [assumption|].
  intros b _ Hb. rewrite length_insert. assumption.
Qed.

Lemma wf_fillTick b st w i : wf w -> wf (fillTick b st w i).
Proof.
  intros H. pose proof (wf_getSamples w H) as H1.
  pose proof (fillTick_spec b st w i) as S. cbn zeta in S.
  pose proof (getSamples_frame w) as F. cbn zeta in F.
  unfold wf in *.
  destruct S as (-> & -> & -> & -> & -> & -> & -> & _).
  rewrite !length_alter, length_insert.
  intuition auto using Forall_alter_length.
Qed.

Lemma wf_refillLoop b n w : wf w -> wf (refillLoop b n w).
Proof.
  intros H. induction n as [|n IH]; [assumption|].
  rewrite refillLoop_S. apply wf_fillTick. assumption.
Qed.

Lemma wf_deref w p : wf w -> length (phaseOffsets (deref w p)) = 4%nat.
Proof. unfold wf. destruct p; cbn; tauto. Qed.

Lemma wf_assign p f w :
  wf w -> length (phaseOffsets (f (deref w p))) = 4%nat -> wf (assign p f w).
Proof. unfold wf, assign. destruct p; cbn; tauto. Qed.

Lemma wf_swapStates w : wf w -> wf (swapStates w).
Proof.
  intros H. unfold swapStates. destruct (_swapPending w); [|assumption].
  assert (forall w', wf w' -> wf (w' <| _swapPending := false |>)) as Hs by (intros [] ?; assumption).
  apply Hs. apply wf_assign.
  - destruct w; assumption.
  - apply wf_deref. destruct w; assumption.
Qed.

Lemma wf_fillBuffer b w : wf w -> wf (fillBuffer b w).
Proof.
  intros H. unfold fillBuffer. destruct (_enabled w); cbn [negb].
  - apply wf_refillLoop, wf_swapStates, H.
  - generalize (seq 0 DMA_BUFFER_SIZE). intros l. revert w H.
    induction l as [|i l IH]; intros w H; [assumption|].
    cbn [foldl]. apply IH. destruct w. unfold wf in *. cbn in *.
    rewrite !length_alter. intuition auto using Forall_alter_length.
Qed.

Lemma wf_set_swapPending w v : wf w -> wf (w <| _swapPending := v |>).
Proof. destruct w; intros; assumption. Qed.

Lemma wf_setPhaseOffsets s w : wf w -> wf (setPhaseOffsets s w).
Proof.
  unfold setPhaseOffsets. generalize (seq 0 4). intros l. revert w.
  induction l as [|i l IH]; intros w H; [assumption|].
  cbn [foldl]. apply IH. apply wf_assign; [assumption|].
  destruct (deref w (_pendingState w)) eqn:E. cbn. rewrite length_insert.
  pose proof (wf_deref w (_pendingState w) H) as Hd. rewrite E in Hd. assumption.
Qed.

Lemma wf_assign_keep p f w :
  (forall st, phaseOffsets (f st) = phaseOffsets st) -> wf w -> wf (assign p f w).
Proof. intros Hf H. apply wf_assign; [assumption|]. rewrite Hf. apply wf_deref, H. Qed.

Ltac wf_fields :=
  repeat (apply wf_assign_keep; [intros []; reflexivity|]); try assumption.

Lemma wf_setFrequency f w : wf w -> wf (setFrequency f w).
Proof. intros H. unfold setFrequency. apply wf_set_swapPending. wf_fields. Qed.

Lemma wf_setAmplitude a w : wf w -> wf (setAmplitude a w).
Proof. intros H. unfold setAmplitude. apply wf_set_swapPending. wf_fields. Qed.

Lemma wf_setEnabled e w : wf w -> wf (setEnabled e w).
Proof. destruct w; intros; assumption. Qed.

Lemma wf_configure s w : wf w -> wf (configure s w).
Proof.
  intros H. unfold configure. apply wf_set_swapPending, wf_setPhaseOffsets. wf_fields.
Qed.

Lemma wf_updateSettings f s w : wf w -> wf (updateSettings f s w).
Proof.
  intros H. unfold updateSettings. apply wf_set_swapPending, wf_setPhaseOffsets. wf_fields.
Qed.

Lemma wf_init : wf init.
Proof. unfold wf. cbn. repeat split; repeat constructor. Qed.

Lemma wf_generateLUT w : wf w -> wf (generateLUT w).
Proof. destruct w; intros; assumption. Qed.

(** The generator that [begin] leaves has arrays of the declared sizes. *)
Lemma wf_begin w : wf w -> wf (begin w).
Proof.
  intros H. unfold begin. apply wf_fillBuffer, wf_fillBuffer, wf_generateLUT, H.
Qed.


(** *** Writes to the pending parameter block *)

(** A write through a state pointer changes that parameter block only. *)
Lemma assign_frame p f w :
  let w' := assign p f w in
  deref w' p = f (deref w p) /\
  _activeState w' = _activeState w /\ _pendingState w' = _pendingState w /\
  _enabled w' = _enabled w /\ _swapPending w' = _swapPending w /\
  _phaseAcc w' = _phaseAcc w /\ _iirPrev w' = _iirPrev w /\
  _firBuffer w' = _firBuffer w.
Proof. destruct w, p; cbn; tauto. Qed.

Lemma sameRun_refl w : sameRun w w.
Proof. unfold sameRun; tauto. Qed.

Lemma sameRun_assign f w' w :
  sameRun w' w -> sameRun (assign (_pendingState w') f w') w.
Proof.
  intros H.
  destruct (assign_frame (_pendingState w') f w') as (_ & ? & ? & ? & _ & ? & ? & ?).
  unfold sameRun in *. intuition congruence.
Qed.

Lemma pending_assign f w :
  let w' := assign (_pendingState w) f w in
  deref w' (_pendingState w') = f (deref w (_pendingState w)).
Proof.
  cbn zeta. destruct (assign_frame (_pendingState w) f w) as (Hd & _ & -> & _).
  exact Hd.
Qed.

Lemma swapPending_set w :
  let w' := w <| _swapPending := true |> in
  _swapPending w' = true /\
  deref w' (_pendingState w') = deref w (_pendingState w) /\ sameRun w' w.
Proof. destruct w as [sa sb act pen]. unfold sameRun. destruct pen; cbn; tauto. Qed.

Lemma setPhaseOffsets_frame s w :
  let w' := setPhaseOffsets s w in
  sameRun w' w /\
  filterType (deref w' (_pendingState w')) = filterType (deref w (_pendingState w)) /\
  phaseInc (deref w' (_pendingState w')) = phaseInc (deref w (_pendingState w)).
Proof.
  unfold setPhaseOffsets. generalize (seq 0 4). intros l.
  induction l as [|i l IH] using rev_ind; cbn zeta in *.
  - split; [apply sameRun_refl|]. split; reflexivity.
  - rewrite foldl_app. cbn [foldl]. destruct IH as (IH1 & IH2 & IH3).
    split; [apply sameRun_assign, IH1|].
    rewrite pending_assign. rewrite <- IH2, <- IH3.
    split; destruct (deref _ _); reflexivity.
Qed.

(** The swap makes the pending block the active one and keeps the rest. *)
Lemma swapStates_pending w :
  _swapPending w = true ->
  let w' := swapStates w in
  deref w' (_activeState w') = deref w (_pendingState w) /\
  _swapPending w' = false /\ _enabled w' = _enabled w /\
  _phaseAcc w' = _phaseAcc w /\ _iirPrev w' = _iirPrev w /\
  _firBuffer w' = _firBuffer w.
Proof.
  intros H. unfold swapStates. rewrite H.
  destruct w as [sa sb act pen en sp acc iir fir fi lut ls lsh d0 d1 cb].
  destruct pen, act; cbn; tauto.
Qed.

(** Closes a goal [sameRun (assign .. (assign .. w)) w]. *)
Ltac same_run := repeat apply sameRun_assign; apply sameRun_refl.

Lemma sameRun_trans w3 w2 w1 : sameRun w3 w2 -> sameRun w2 w1 -> sameRun w3 w1.
Proof. unfold sameRun. intuition congruence. Qed.

Lemma configure_pending s w :
  let w' := configure s w in
  _swapPending w' = true /\ sameRun w' w /\
  filterType (deref w' (_pendingState w')) = Types.filterType s.
Proof.
  cbn zeta. unfold configure.
  match goal with |- context [setPhaseOffsets s ?x] =>
    destruct (setPhaseOffsets_frame s x) as (R & F & _);
    destruct (swapPending_set (setPhaseOffsets s x)) as (S1 & S2 & S3);
    assert (sameRun x w) as Q by same_run
  end.
  cbn zeta in *. split; [exact S1|]. rewrite S2, F. split.
  - eapply sameRun_trans; [exact S3|]. eapply sameRun_trans; [exact R|exact Q].
  - rewrite !pending_assign. destruct (deref w (_pendingState w)); reflexivity.
Qed.

Lemma updateSettings_pending f s w :
  let w' := updateSettings f s w in
  _swapPending w' = true /\ sameRun w' w /\
  filterType (deref w' (_pendingState w')) = Types.filterType s /\
  phaseInc (deref w' (_pendingState w')) = phaseIncOf f.
Proof.
  cbn zeta. unfold updateSettings.
  match goal with |- context [setPhaseOffsets s ?x] =>
    destruct (setPhaseOffsets_frame s x) as (R & F & I);
    destruct (swapPending_set (setPhaseOffsets s x)) as (S1 & S2 & S3);
    assert (sameRun x w) as Q by same_run
  end.
  cbn zeta in *. split; [exact S1|]. rewrite S2, F, I. split.
  - eapply sameRun_trans; [exact S3|]. eapply sameRun_trans; [exact R|exact Q].
  - rewrite !pending_assign. destruct (deref w (_pendingState w)); split; reflexivity.
Qed.

Lemma setFrequency_pending f w :
  let w' := setFrequency f w in
  _swapPending w' = true /\ sameRun w' w /\
  phaseInc (deref w' (_pendingState w')) = phaseIncOf f.
Proof.
  cbn zeta. unfold setFrequency.
  match goal with |- context [?x <| _swapPending := true |>] =>
    destruct (swapPending_set x) as (S1 & S2 & S3);
    assert (sameRun x w) as Q by same_run
  end.
  cbn zeta in *. split; [exact S1|]. rewrite S2. split.
  - eapply sameRun_trans; [exact S3|exact Q].
  - rewrite !pending_assign. destruct (deref w (_pendingState w)); reflexivity.
Qed.

(** *** The disabled refill *)

Lemma length_zero_fill b idx (l : list (list Z)) :
  length (foldl (fun l i => alter (<[i := 0]>) b l) l idx) = length l.
Proof.
  revert l. induction idx as [|i idx IH]; intros l; [reflexivity|].
  cbn [foldl]. rewrite IH, length_alter. reflexivity.
Qed.

(** Zeroing entries [0 .. k-1] of buffer [b]. *)
Lemma zero_fill_prefix b k (l : list (list Z)) :
  (b < length l)%nat -> (k <= length (l !!! b))%nat ->
  foldl (fun l i => alter (<[i := 0]>) b l) l (seq 0 k) !!! b
  = replicate k 0 ++ drop k (l !!! b).
Proof.
  intros Hb. induction k as [|k IH]; intros Hk.
  - reflexivity.
  - rewrite seq_S, foldl_app. cbn [foldl].
    rewrite list_lookup_total_alter_eq by (rewrite length_zero_fill; assumption).
    rewrite IH by lia.
    rewrite insert_app_r_alt by (rewrite length_replicate; lia).
    rewrite length_replicate, Nat.sub_diag.
    destruct (drop k _) as [|x tl] eqn:E.
    { apply (f_equal length) in E. rewrite length_drop in E. cbn in E. lia. }
    cbn [insert list_insert].
    replace (drop (S k) _) with tl
      by (change (S k) with (1 + k)%nat;
          rewrite Nat.add_comm, <- drop_drop, E; reflexivity).
    rewrite replicate_S_end, <- app_assoc. reflexivity.
Qed.

Lemma zero_fill_all b (l : list (list Z)) n :
  (b < length l)%nat -> length (l !!! b) = n ->
  foldl (fun l i => alter (<[i := 0]>) b l) l (seq 0 n) !!! b = replicate n 0.
Proof.
  intros Hb Hn. rewrite zero_fill_prefix by lia.
  rewrite drop_ge by lia. apply app_nil_r.
Qed.

(** The disabled branch of [fillBuffer] as a fold on each slice; every
    other member is left alone. *)
Lemma fillBuffer_disabled b w :
  _enabled w = false ->
  let w' := fillBuffer b w in
  _dmaBufferSlice0 w' =
    foldl (fun l i => alter (<[i := 0]>) b l) (_dmaBufferSlice0 w)
          (seq 0 DMA_BUFFER_SIZE) /\
  _dmaBufferSlice1 w' =
    foldl (fun l i => alter (<[i := 0]>) b l) (_dmaBufferSlice1 w)
          (seq 0 DMA_BUFFER_SIZE) /\
  _phaseAcc w' = _phaseAcc w /\ _iirPrev w' = _iirPrev w /\
  _firBuffer w' = _firBuffer w /\
  _stateA w' = _stateA w /\ _stateB w' = _stateB w /\
  _activeState w' = _activeState w /\ _pendingState w' = _pendingState w /\
  _swapPending w' = _swapPending w.
Proof.
  intros He. unfold fillBuffer. rewrite He. cbn [negb].
  generalize (seq 0 DMA_BUFFER_SIZE). intros idx. revert w He.
  induction idx as [|i idx IH]; intros w He; cbn zeta.
  - cbn. tauto.
  - cbn [foldl].
    match goal with |- context [foldl ?f ?w1 idx] =>
      specialize (IH w1 ltac:(destruct w; exact He)) end.
    cbn zeta in IH.
    destruct IH as (-> & -> & -> & -> & -> & -> & -> & -> & -> & ->).
    destruct w; cbn. tauto.
Qed.

Lemma wf_buffer_length b w :
  wf w -> (b < 2)%nat ->
  (b < length (_dmaBufferSlice0 w))%nat /\
  length (_dmaBufferSlice0 w !!! b) = DMA_BUFFER_SIZE /\
  (b < length (_dmaBufferSlice1 w))%nat /\
  length (_dmaBufferSlice1 w !!! b) = DMA_BUFFER_SIZE.
Proof.
  intros (_ & _ & _ & _ & _ & _ & H0 & H1 & F0 & F1) Hb.
  repeat split; try lia.
  - apply (Forall_lookup_total_1 _ _ b F0). lia.
  - apply (Forall_lookup_total_1 _ _ b F1). lia.
Qed.

(** C3, as the code has it: a refill of buffer [b] made while the generator
    is disabled writes the word 0 (both 16-bit halves 0, not the centre
    value 512) to every entry of that buffer in both slices, and leaves the
    master phase accumulator and the IIR and FIR histories as they were. *)
Theorem disabled_refill_writes_zero b w :
  wf w -> (b < 2)%nat -> _enabled w = false ->
  let w' := fillBuffer b w in
  _dmaBufferSlice0 w' !!! b = replicate DMA_BUFFER_SIZE 0 /\
  _dmaBufferSlice1 w' !!! b = replicate DMA_BUFFER_SIZE 0 /\
  _phaseAcc w' = _phaseAcc w /\
  _iirPrev w' = _iirPrev w /\
  _firBuffer w' = _firBuffer w.
Proof.
  intros Hwf Hb He. cbn zeta.
  destruct (fillBuffer_disabled b w He) as (-> & -> & -> & -> & -> & _).
  destruct (wf_buffer_length b w Hwf Hb) as (? & ? & ? & ?).
  rewrite !zero_fill_all by assumption. auto.
Qed.

Lemma wf_disabledAfterRefill : wf Bench.disabledAfterRefill.
Proof. vm_compute. repeat split; repeat constructor. Qed.

Lemma disabledAfterRefill_eval :
  let w := Bench.disabledAfterRefill in
  (_dmaBufferSlice0 w !!! 0%nat) !! 0%nat = Some (767 * 65536 + 512) /\
  _phaseAcc w !!! 0%nat = 1099511552 /\
  _iirPrev w !! 0%nat = Some (F32 (S754_finite false 16711679 (-15))).
Proof. vm_compute. auto. Qed.

(** The generator of the bench run after its first enabled refill, then
    disabled as [handleBraking] does at the end of a stop: buffer 0 holds
    samples, the master phase has advanced and the IIR history is not
    zero. *)
Lemma disabled_refill_writes_zero_witness :
  let w := Bench.disabledAfterRefill in
  (wf w /\ (0 < 2)%nat /\ _enabled w = false) /\
  ((_dmaBufferSlice0 w !!! 0%nat) !! 0%nat = Some (767 * 65536 + 512) /\
   _phaseAcc w !!! 0%nat = 1099511552 /\
   _iirPrev w !! 0%nat = Some (F32 (S754_finite false 16711679 (-15)))) /\
  let w' := fillBuffer 0 w in
  _dmaBufferSlice0 w' !!! 0%nat = replicate DMA_BUFFER_SIZE 0 /\
  _dmaBufferSlice1 w' !!! 0%nat = replicate DMA_BUFFER_SIZE 0 /\
  _phaseAcc w' = _phaseAcc w /\
  _iirPrev w' = _iirPrev w /\
  _firBuffer w' = _firBuffer w.
Proof.
  split; [split; [exact wf_disabledAfterRefill|split; [lia|reflexivity]]|].
  split; [exact disabledAfterRefill_eval|].
  exact (disabled_refill_writes_zero 0 Bench.disabledAfterRefill
           wf_disabledAfterRefill ltac:(lia) eq_refl).
Defined.

(** C3 as stated fails: after a disabled refill of the freshly constructed
    generator, entry 0 of slice 0 is the word 0, whose halves are not 512. *)
Lemma disabled_refill_not_centre_counterexample :
  _enabled init = false /\
  ~ Forall Spec.centreWord (_dmaBufferSlice0 (fillBuffer 0 init) !!! 0%nat).
Proof.
  split; [reflexivity|]. intros H.
  assert ((_dmaBufferSlice0 (fillBuffer 0 init) !!! 0%nat) !! 0%nat = Some 0) as E
    by (vm_compute; reflexivity).
  apply (Forall_lookup_1 _ _ _ _ H) in E. destruct E as [E _].
  vm_compute in E. discriminate E.
Qed.

(** *** The enabled refill *)

Lemma fillBuffer_enabled b w :
  _enabled w = true -> fillBuffer b w = refillLoop b DMA_BUFFER_SIZE (swapStates w).
Proof. intros He. unfold fillBuffer. rewrite He. reflexivity. Qed.

(** C9: after an enabled refill of buffer [b], each of its 256 words in
    both slices holds, in each 16-bit half, a compare value in [0, 1023];
    this holds for all four channels, every filter kind and every phase
    offset.  The cast to [uint16_t] and the clamp at 1023 give the bound by
    themselves, so the bounds on the amplitude and on the IIR alpha are not
    needed. *)
Theorem compare_values_in_range b w :
  wf w -> (b < 2)%nat -> _enabled w = true ->
  let w' := fillBuffer b w in
  length (_dmaBufferSlice0 w' !!! b) = DMA_BUFFER_SIZE /\
  length (_dmaBufferSlice1 w' !!! b) = DMA_BUFFER_SIZE /\
  Forall Spec.tenBit (_dmaBufferSlice0 w' !!! b) /\
  Forall Spec.tenBit (_dmaBufferSlice1 w' !!! b).
Proof.
  intros Hwf Hb He. cbn zeta.
  destruct (wf_buffer_length b _ (wf_fillBuffer b w Hwf) Hb) as (_ & L0 & _ & L1).
  split; [exact L0|]. split; [exact L1|].
  rewrite fillBuffer_enabled in * by assumption.
  destruct (refillLoop_tenBit b DMA_BUFFER_SIZE (swapStates w)) as [T0 T1].
  rewrite take_ge in T0 by (rewrite L0; apply Nat.le_refl).
  rewrite take_ge in T1 by (rewrite L1; apply Nat.le_refl).
  auto.
Qed.

(** After [setFrequency] and the swap, the active block carries the new
    increment; the accumulator and the enable flag are untouched. *)
Lemma swap_setFrequency f w :
  let w' := swapStates (setFrequency f w) in
  phaseInc (deref w' (_activeState w')) = phaseIncOf f /\
  _phaseAcc w' = _phaseAcc w /\ _enabled w' = _enabled w /\
  _swapPending w' = false.
Proof.
  destruct (setFrequency_pending f w) as (S & R & I).
  destruct (swapStates_pending _ S) as (D & P & E & A & _).
  cbn zeta. rewrite D, I. unfold sameRun in R. intuition congruence.
Qed.

Lemma u32_range z : 0 <= u32 z < 2 ^ 32.
Proof. apply Z.mod_pos_bound. lia. Qed.

(** One refill with no swap pending advances the accumulator by 256
    increments of the active block and keeps that block. *)
Lemma fillBuffer_steady b w :
  wf w -> _enabled w = true -> _swapPending w = false ->
  0 <= _phaseAcc w !!! 0%nat < 2 ^ 32 ->
  let w' := fillBuffer b w in
  wf w' /\ _enabled w' = true /\ _swapPending w' = false /\
  deref w' (_activeState w') = deref w (_activeState w) /\
  _phaseAcc w' !!! 0%nat =
    u32 ((_phaseAcc w !!! 0%nat)
         + Z.of_nat DMA_BUFFER_SIZE * phaseInc (deref w (_activeState w))).
Proof.
  intros Hwf He Hs Hr. cbn zeta.
  split; [apply wf_fillBuffer, Hwf|].
  rewrite fillBuffer_enabled by assumption.
  assert (swapStates w = w) as -> by (unfold swapStates; rewrite Hs; reflexivity).
  destruct (refillLoop_frame b DMA_BUFFER_SIZE w) as (FA & FB & Fa & Fp & Fe & Fs).
  destruct (refillLoop_phase b DMA_BUFFER_SIZE w) as [_ Hp];
    [destruct Hwf as [-> _]; lia | assumption |].
  split; [rewrite Fe; exact He|]. split; [rewrite Fs; exact Hs|].
  split; [|exact Hp].
  rewrite Fa. unfold deref. destruct (_activeState w); assumption.
Qed.

(** Refills with no swap pending: 256 increments each. *)
Lemma refills_steady inc bs : forall w z,
  wf w -> _enabled w = true -> _swapPending w = false ->
  phaseInc (deref w (_activeState w)) = inc ->
  _phaseAcc w !!! 0%nat = u32 (z * inc) ->
  _phaseAcc (refills bs w) !!! 0%nat
  = u32 ((z + Z.of_nat DMA_BUFFER_SIZE * Z.of_nat (length bs)) * inc).
Proof.
  induction bs as [|b bs IH]; intros w z Hw He Hs Hi Ha.
  - cbn [refills foldl length]. rewrite Ha. f_equal. lia.
  - change (refills (b :: bs) w) with (refills bs (fillBuffer b w)). cbn [length].
    destruct (fillBuffer_steady b w Hw He Hs) as (Hw2 & He2 & Hs2 & Hd2 & Ha2);
      [rewrite Ha; apply u32_range|].
    rewrite (IH _ (z + Z.of_nat DMA_BUFFER_SIZE)); try assumption.
    + f_equal. lia.
    + rewrite Hd2. exact Hi.
    + rewrite Ha2, Hi, Ha. unfold u32. rewrite Zplus_mod_idemp_l. f_equal. lia.
Qed.

(** C6, as the code has it: for a frequency [f] from 10 Hz to 3000 Hz the
    increment that [setFrequency] stores is [phaseIncOf f], the double
    product of [f] and 85899.34592 truncated to [uint32_t] (not rounded),
    and from a zero accumulator the master phase after [k] ticks of enabled
    refill is [k] times that increment modulo 2^32: tick by tick within the
    first refill after the call, and after any number of whole refills of
    256 ticks. *)
Theorem phase_accumulator_evolution f w :
  Spec.frequencyInRange f ->
  wf w -> _enabled w = true -> _phaseAcc w !!! 0%nat = 0 ->
  phaseInc (deref (setFrequency f w) (_pendingState (setFrequency f w)))
  = phaseIncOf f /\
  (forall b k,
     _phaseAcc (refillLoop b k (swapStates (setFrequency f w))) !!! 0%nat
     = u32 (Z.of_nat k * phaseIncOf f)) /\
  (forall bs,
     _phaseAcc (refills bs (setFrequency f w)) !!! 0%nat
     = u32 (Z.of_nat (DMA_BUFFER_SIZE * length bs) * phaseIncOf f)).
Proof.
  intros _ Hwf He H0.
  destruct (swap_setFrequency f w) as (Hinc & Hacc & Hen & Hsp).
  destruct (setFrequency_pending f w) as (_ & (_ & _ & Fen & Facc & _) & Hpend).
  split; [exact Hpend|].
  assert (wf (swapStates (setFrequency f w))) as Hwf'
    by (apply wf_swapStates, wf_setFrequency, Hwf).
  assert (forall b k,
     _phaseAcc (refillLoop b k (swapStates (setFrequency f w))) !!! 0%nat
     = u32 (Z.of_nat k * phaseIncOf f)) as Hticks.
  { intros b k.
    destruct (refillLoop_phase b k (swapStates (setFrequency f w))) as [_ Hp].
    - destruct Hwf' as [-> _]. lia.
    - rewrite Hacc, H0. lia.
    - rewrite Hp, Hinc, Hacc, H0. reflexivity. }
  split; [exact Hticks|].
  intros [|b bs].
  { cbn [refills foldl length]. rewrite Nat.mul_0_r, Facc, H0. reflexivity. }
  change (refills (b :: bs) (setFrequency f w))
    with (refills bs (fillBuffer b (setFrequency f w))).
  rewrite fillBuffer_enabled by (rewrite Fen; exact He).
  destruct (refillLoop_frame b DMA_BUFFER_SIZE (swapStates (setFrequency f w)))
    as (FA & FB & Fa & Fp & Fe & Fs).
  rewrite (refills_steady (phaseIncOf f) bs _ (Z.of_nat DMA_BUFFER_SIZE)).
  - f_equal. cbn [length]. lia.
  - apply wf_refillLoop, Hwf'.
  - rewrite Fe, Hen. exact He.
  - rewrite Fs. exact Hsp.
  - rewrite <- Hinc. f_equal. rewrite Fa. unfold deref.
    destruct (_activeState (swapStates (setFrequency f w))); assumption.
  - apply Hticks.
Qed.

Lemma frequencyInRange_20Hz : Spec.frequencyInRange (f32_lit 20 1).
Proof. vm_compute. auto. Qed.

(** The generator enabled straight after the constructor, set to 20 Hz:
    the increment stored is 1717986 and two refills later the accumulator
    is 512 increments on. *)
Lemma phase_accumulator_evolution_witness :
  let w := setEnabled true init in
  let f := f32_lit 20 1 in
  Spec.frequencyInRange f /\
  wf w /\ _enabled w = true /\ _phaseAcc w !!! 0%nat = 0 /\
  phaseIncOf f = 1717986 /\
  _phaseAcc (refills [0; 1]%nat (setFrequency f w)) !!! 0%nat
  = u32 (Z.of_nat (DMA_BUFFER_SIZE * 2) * phaseIncOf f).
Proof.
  cbn zeta. split; [exact frequencyInRange_20Hz|].
  split; [exact (wf_setEnabled true init wf_init)|].
  split; [reflexivity|]. split; [reflexivity|].
  split; [vm_compute; reflexivity|].
  exact (proj2 (proj2 (phase_accumulator_evolution (f32_lit 20 1) (setEnabled true init)
                  frequencyInRange_20Hz
                  (wf_setEnabled true init wf_init) eq_refl eq_refl)) [0; 1]%nat).
Defined.

(** C6 as stated fails at 20 Hz: 20 * 2^32 / 50000 = 1717986.9184, the
    code stores the increment 1717986 where rounding gives 1717987, and
    after the 256 ticks of one refill the accumulator is 256 * 1717986 and
    not round (256 * 1717986.9184). *)
Lemma phase_round_counterexample :
  let f := f32_lit 20 1 in
  _phaseAcc Bench.at20Hz !!! 0%nat = 0 /\
  _enabled Bench.at20Hz = true /\
  phaseInc (deref Bench.at20Hz (_pendingState Bench.at20Hz)) = 1717986 /\
  Spec.phaseIncrement f = 1717987 /\
  _phaseAcc (fillBuffer 0 Bench.at20Hz) !!! 0%nat = 439804416 /\
  Spec.masterPhase 256 f = 439804651.
Proof. vm_compute. repeat split. Qed.

(** Entry [i] of the buffer after [n > i] passes is the word packed at pass
    [i]: later passes write other entries. *)
Lemma refillLoop_entry b n w i :
  wf w -> (b < 2)%nat -> (i < n)%nat -> (i < DMA_BUFFER_SIZE)%nat ->
  let samples := (getSamples (refillLoop b i w)).1 in
  (_dmaBufferSlice0 (refillLoop b n w) !!! b) !! i
    = Some (pack (compareValue (samples !!! 1%nat)) (compareValue (samples !!! 0%nat))) /\
  (_dmaBufferSlice1 (refillLoop b n w) !!! b) !! i
    = Some (pack (compareValue (samples !!! 3%nat)) (compareValue (samples !!! 2%nat))).
Proof.
  intros Hwf Hb Hi Hi'. cbn zeta. induction n as [|n IH]; [lia|].
  rewrite refillLoop_S.
  pose proof (fillTick_spec b (_activeState w) (refillLoop b n w) n) as S.
  cbn zeta in S. destruct S as (-> & -> & _).
  destruct (wf_buffer_length b _ (wf_refillLoop b n w Hwf) Hb) as (B0 & L0 & B1 & L1).
  rewrite !list_lookup_total_alter_eq by assumption.
  destruct (decide (i = n)) as [->|Hne].
  - rewrite !list_lookup_insert_eq by (rewrite ?L0, ?L1; assumption). auto.
  - rewrite !list_lookup_insert_ne by (intros ->; apply Hne; reflexivity).
    apply IH. lia.
Qed.

(** C2, as the code has it: the phase mode is a stored setting that the
    generator never reads.  Whatever value [n] the phase mode is set to, an
    enabled refill of buffer [b] is the refill of the generator alone, and
    entry [i] of the buffer packs the compare values of all four channels
    as [getSample] gives them at tick [i]: channels A and B in slice 0,
    channels C and D in slice 1, none replaced by the centre value. *)
Theorem refill_synthesises_all_channels n b i sys :
  let w := App.waveform sys in
  wf w -> (b < 2)%nat -> _enabled w = true -> (i < DMA_BUFFER_SIZE)%nat ->
  let sys' :=
    Sketch.refill b
      (App.configureGlobal (fun g => g <| Types.phaseMode := n |>) sys) in
  let samples := (getSamples (refillLoop b i (swapStates w))).1 in
  App.waveform sys' = fillBuffer b w /\
  (_dmaBufferSlice0 (App.waveform sys') !!! b) !! i
    = Some (pack (compareValue (samples !!! 1%nat)) (compareValue (samples !!! 0%nat))) /\
  (_dmaBufferSlice1 (App.waveform sys') !!! b) !! i
    = Some (pack (compareValue (samples !!! 3%nat)) (compareValue (samples !!! 2%nat))).
Proof.
  intros w Hwf Hb He Hi sys' samples.
  assert (App.waveform sys' = fillBuffer b w) as -> by (destruct sys; reflexivity).
  split; [reflexivity|]. subst samples.
  rewrite fillBuffer_enabled by assumption.
  apply refillLoop_entry; auto using wf_swapStates.
Qed.

(** C5, as the code has it: [configure] and [updateSettings] only write
    the pending parameter block.  At the swap that opens the next refill
    the new filter kind becomes the active one, and the four IIR previous
    outputs and the four FIR ring buffers are what they were before the
    update: nothing resets them. *)
Theorem filter_history_kept s f w :
  let w1 := swapStates (configure s w) in
  let w2 := swapStates (updateSettings f s w) in
  (filterType (deref w1 (_activeState w1)) = Types.filterType s /\
   _iirPrev w1 = _iirPrev w /\ _firBuffer w1 = _firBuffer w) /\
  (filterType (deref w2 (_activeState w2)) = Types.filterType s /\
   _iirPrev w2 = _iirPrev w /\ _firBuffer w2 = _firBuffer w).
Proof.
  cbn zeta. split.
  - destruct (configure_pending s w) as (S & R & F).
    destruct (swapStates_pending _ S) as (D & _ & _ & _ & I & B).
    rewrite D, F, I, B. unfold sameRun in R. intuition congruence.
  - destruct (updateSettings_pending f s w) as (S & R & F & _).
    destruct (swapStates_pending _ S) as (D & _ & _ & _ & I & B).
    rewrite D, F, I, B. unfold sameRun in R. intuition congruence.
Qed.

(** *** The bench run *)

Lemma wf_runningSinglePhase : wf (App.waveform Bench.runningSinglePhase).
Proof. vm_compute. repeat split; repeat constructor. Qed.

Lemma enabled_runningSinglePhase :
  _enabled (App.waveform Bench.runningSinglePhase) = true.
Proof. vm_compute. reflexivity. Qed.

(** The first refill of the bench run in single-phase mode, evaluated:
    entry 0 of slice 0 carries 767 for channel B and 512 for channel A, and
    the IIR history of channel A is no longer zero. *)
Lemma refilledSinglePhase_eval :
  let w := App.waveform Bench.refilledSinglePhase in
  (_dmaBufferSlice0 w !!! 0%nat) !! 0%nat = Some (767 * 65536 + 512) /\
  _iirPrev w !! 0%nat = Some (F32 (S754_finite false 16711679 (-15))) /\
  filterType (deref w (_activeState w)) = Types.FILTER_IIR.
Proof. vm_compute. auto. Qed.

Lemma switchedToFir_eval :
  let w := Bench.switchedToFir in
  _iirPrev w !! 0%nat = Some (F32 (S754_finite false 16711679 (-15))) /\
  filterType (deref w (_activeState w)) = Types.FILTER_FIR.
Proof. vm_compute. auto. Qed.

(** The running motor of the bench, phase mode 1: entry 0 of buffer 0. *)
Lemma refill_synthesises_all_channels_witness :
  let sys := Bench.runningSinglePhase in
  let w := App.waveform sys in
  wf w /\ (0 < 2)%nat /\ _enabled w = true /\ (0 < DMA_BUFFER_SIZE)%nat /\
  let sys' :=
    Sketch.refill 0
      (App.configureGlobal (fun g => g <| Types.phaseMode := 1 |>) sys) in
  let samples := (getSamples (refillLoop 0 0 (swapStates w))).1 in
  App.waveform sys' = fillBuffer 0 w /\
  (_dmaBufferSlice0 (App.waveform sys') !!! 0%nat) !! 0%nat
    = Some (pack (compareValue (samples !!! 1%nat)) (compareValue (samples !!! 0%nat))) /\
  (_dmaBufferSlice1 (App.waveform sys') !!! 0%nat) !! 0%nat
    = Some (pack (compareValue (samples !!! 3%nat)) (compareValue (samples !!! 2%nat))).
Proof.
  split; [exact wf_runningSinglePhase|]. split; [lia|].
  split; [exact enabled_runningSinglePhase|].
  split; [unfold DMA_BUFFER_SIZE; lia|].
  exact (refill_synthesises_all_channels 1 0 0 Bench.runningSinglePhase
           wf_runningSinglePhase ltac:(lia) enabled_runningSinglePhase
           ltac:(unfold DMA_BUFFER_SIZE; lia)).
Defined.

(** C2 as stated fails: with phase mode 1 the motor runs, the generator is
    enabled, and the first word of the refilled buffer carries 767 for
    channel B (index 1 >= 1), not the centre value 512. *)
Lemma single_phase_counterexample :
  Types.phaseMode (Motor.cfg Bench.runningSinglePhase) = 1 /\
  _enabled (App.waveform Bench.runningSinglePhase) = true /\
  ~ Forall (fun word => highHalf word = 512)
           (_dmaBufferSlice0 (App.waveform Bench.refilledSinglePhase) !!! 0%nat).
Proof.
  split; [reflexivity|]. split; [exact enabled_runningSinglePhase|]. intros H.
  destruct refilledSinglePhase_eval as (E & _).
  apply (Forall_lookup_1 _ _ _ _ H) in E. vm_compute in E. discriminate E.
Qed.

(** C5 as stated fails: the bench run with the IIR filter, one refill, then
    the filter kind set to FIR and applied.  At the next swap the active
    kind is FIR and the IIR history of channel A still holds the value the
    refill left, 16711679 * 2^-15, not zero. *)
Lemma filter_switch_counterexample :
  let before := App.waveform Bench.refilledSinglePhase in
  let after := Bench.switchedToFir in
  filterType (deref before (_activeState before)) = Types.FILTER_IIR /\
  filterType (deref after (_activeState after)) = Types.FILTER_FIR /\
  ~ Spec.historyReset after.
Proof.
  cbn zeta. destruct refilledSinglePhase_eval as (_ & _ & F).
  destruct switchedToFir_eval as (E & F').
  split; [exact F|]. split; [exact F'|].
  intros [H _].
  apply (Forall_lookup_1 _ _ _ _ H) in E. vm_compute in E. discriminate E.
Qed.

(** The same bench state for C9: the words of the refilled buffer. *)
Lemma compare_values_in_range_witness :
  let w := App.waveform Bench.runningSinglePhase in
  wf w /\ (0 < 2)%nat /\ _enabled w = true /\
  let w' := fillBuffer 0 w in
  length (_dmaBufferSlice0 w' !!! 0%nat) = DMA_BUFFER_SIZE /\
  length (_dmaBufferSlice1 w' !!! 0%nat) = DMA_BUFFER_SIZE /\
  Forall Spec.tenBit (_dmaBufferSlice0 w' !!! 0%nat) /\
  Forall Spec.tenBit (_dmaBufferSlice1 w' !!! 0%nat).
Proof.
  split; [exact wf_runningSinglePhase|]. split; [lia|].
  split; [exact enabled_runningSinglePhase|].
  exact (compare_values_in_range 0 (App.waveform Bench.runningSinglePhase)
           wf_runningSinglePhase ltac:(lia) enabled_runningSinglePhase).
Defined.

End WaveformFacts.

(** ** The motor controller and the error handler *)

Module MotorFacts.

Import Types App.

(** [setRelays(false)] writes the muted level to the four mute outputs,
    whatever the power-on delay, and leaves the state machine where it is. *)
Lemma setRelays_false now sys :
  let sys' := Motor.setRelays now false sys in
  Spec.allMuted sys' /\ _state (motor sys') = _state (motor sys) /\
  settings sys' = settings sys /\ errorHandler sys' = errorHandler sys.
Proof.
  unfold Motor.setRelays, Spec.allMuted, Motor.cfg, Motor.M, digitalWrite.
  destruct sys as [st fs w m u e g ser cms cf cp]. cbn.
  destruct (_powerOnDelayActive m); cbn.
  - destruct (u32 (now - _powerOnTime m) <? _); cbn;
      destruct (muteRelayLinkStandby _); cbn;
      repeat split; by simplify_map_eq.
  - destruct (muteRelayLinkStandby _); cbn; repeat split; by simplify_map_eq.
Qed.

(** C1, as the code has it: the relays are muted by [ui.showError], which
    [report] calls only while the on-screen error display is enabled.  For
    every critical report (any error code, any message, any state) the
    state of the motor state machine is what it was and [hasCriticalError]
    is true when [report] returns.  With the display enabled the four mute
    outputs are then at the muted level; with the display disabled no
    output is written and the motor controller is left as it was. *)
Theorem critical_report_mutes_when_displayed now code msg sys :
  let sys' := ErrorHandler.report now code msg true sys in
  _state (motor sys') = _state (motor sys) /\
  ErrorHandler.hasCriticalError sys' = true /\
  (errorDisplayEnabled (Motor.cfg sys) = true -> Spec.allMuted sys') /\
  (errorDisplayEnabled (Motor.cfg sys) = false ->
   gpio sys' = gpio sys /\ motor sys' = motor sys).
Proof.
  unfold ErrorHandler.report, UI.showError. cbn [andb].
  match goal with |- context [if errorDisplayEnabled (Motor.cfg ?s) then _ else _] =>
    replace (errorDisplayEnabled (Motor.cfg s))
      with (errorDisplayEnabled (Motor.cfg sys)) by (destruct sys; reflexivity) end.
  destruct (errorDisplayEnabled (Motor.cfg sys)).
  - match goal with |- context [Motor.setRelays now false ?s] =>
      destruct (setRelays_false now s) as (Hm & Hs & Hset & He) end.
    cbn zeta. split; [rewrite Hs; destruct sys; reflexivity|].
    split; [unfold ErrorHandler.hasCriticalError; rewrite He; destruct sys; reflexivity|].
    split; [intros _; exact Hm|]. intros [=].
  - cbn zeta. destruct sys.
    split; [reflexivity|]. split; [reflexivity|]. split; [intros [=]|].
    intros _. split; reflexivity.
Qed.

Lemma display_enabled_running :
  errorDisplayEnabled (Motor.cfg (Bench.spinUp Bench.booted)) = true.
Proof. vm_compute. reflexivity. Qed.

Lemma display_disabled_runningSilent :
  errorDisplayEnabled (Motor.cfg Bench.runningSilent) = false.
Proof. vm_compute. reflexivity. Qed.

(** A stall reported at 5 s on the running motor of the bench: with the
    settings the firmware ships (error display enabled) the relays are
    muted, with the display switched off the outputs stay as they are. *)
Lemma critical_report_mutes_when_displayed_witness :
  let report := ErrorHandler.report 5000 ErrorHandler.ERR_MOTOR_STALL "stall" true in
  (errorDisplayEnabled (Motor.cfg (Bench.spinUp Bench.booted)) = true /\
   Spec.allMuted (report (Bench.spinUp Bench.booted))) /\
  (errorDisplayEnabled (Motor.cfg Bench.runningSilent) = false /\
   gpio (report Bench.runningSilent) = gpio Bench.runningSilent /\
   motor (report Bench.runningSilent) = motor Bench.runningSilent).
Proof.
  split.
  - split; [exact display_enabled_running|].
    exact (proj1 (proj2 (proj2
             (critical_report_mutes_when_displayed 5000 ErrorHandler.ERR_MOTOR_STALL
                "stall" (Bench.spinUp Bench.booted)))) display_enabled_running).
  - split; [exact display_disabled_runningSilent|].
    exact (proj2 (proj2 (proj2
             (critical_report_mutes_when_displayed 5000 ErrorHandler.ERR_MOTOR_STALL
                "stall" Bench.runningSilent))) display_disabled_runningSilent).
Defined.

(** C1 as stated fails: with the error display switched off in the
    settings, a critical stall reported while the motor runs leaves the
    mute outputs at the unmuted level. *)
Lemma report_display_off_counterexample :
  let sys' := ErrorHandler.report 5000 ErrorHandler.ERR_MOTOR_STALL "stall" true
                Bench.runningSilent in
  _state (motor Bench.runningSilent) = STATE_RUNNING /\ ~ Spec.allMuted sys'.
Proof.
  split; [vm_compute; reflexivity|].
  intros (H & _). vm_compute in H. discriminate H.
Qed.

(** C4 fails on the code: at 33 rpm (nominal 50 Hz, limits 40 Hz and
    60 Hz) with the pitch range at 30 % and the pitch at 30 %, the tick in
    the running state publishes 50 + 50 * 30 / 100 = 65 Hz to the
    generator, above the maximum frequency of the profile.  [update] never
    reads the limits. *)
Lemma pitch_at_range_boundary_exceeds_max :
  let sys := Bench.pitchedUp in
  let sp := Motor.cur sys in
  _state (motor sys) = STATE_RUNNING /\
  _pitchRange (motor sys) = 30 /\
  currentPitchPercent sys = f32_lit 30 1 /\
  frequency sp = f32_lit 50 1 /\
  minFrequency sp = f32_lit 40 1 /\
  maxFrequency sp = f32_lit 60 1 /\
  Waveform.getFrequency (waveform sys) = f32_lit 65 1 /\
  ~ Spec.withinLimits sp (Waveform.getFrequency (waveform sys)).
Proof.
  vm_compute. repeat split; try reflexivity. intros [_ H]. discriminate H.
Qed.

End MotorFacts.

(** ** The settings store *)

Module SettingsFacts.

Import Types Settings.

Section WithLayout.
Context {layout : StructLayout}.

(** A read of [n] bytes returns the bytes that remain, [n] at most. *)
Lemma read_length n f :
  length (FS.read n f).1 = min n (length (FS.content f) - FS.position f).
Proof. unfold FS.read. cbn. rewrite length_take, length_drop. reflexivity. Qed.

Lemma save_rw s fs :
  FS.mounted_rw fs = true ->
  FS.files (save s fs) !! _filename = Some (image (_data s)).
Proof.
  intros H. unfold save, FS.write_file. rewrite H. destruct fs; cbn.
  apply lookup_insert_eq.
Qed.

(** C8: when the version 2 struct can be read in full from the file,
    [migrate(2, f)] returns true; every member the version 2 layout has
    (the schema version apart, which becomes 4) equals the value read;
    [freqDependentAmplitude] is 0 and [bootSpeed] is 3; and the result is
    saved: on a writable file system the settings file then holds the
    image of the new struct. *)
Theorem migrate_v2 f s fs :
  (sizeof_GlobalSettingsV2 <= length (FS.content f) - FS.position f)%nat ->
  let v2 := viewV2 (take sizeof_GlobalSettingsV2 (drop (FS.position f) (FS.content f))) in
  let '(ok, _, s', fs') := migrate 2 f s fs in
  ok = true /\
  Spec.v2Subset (V2.schemaVersion v2) (_data s') = v2 /\
  schemaVersion (_data s') = SETTINGS_SCHEMA_VERSION /\
  freqDependentAmplitude (_data s') = 0 /\
  bootSpeed (_data s') = 3 /\
  fs' = save s' fs /\
  (FS.mounted_rw fs = true -> FS.files fs' !! _filename = Some (image (_data s'))).
Proof.
  intros Hlen. cbn zeta. unfold migrate. cbn [Z.eqb Pos.eqb].
  pose proof (read_length sizeof_GlobalSettingsV2 f) as Hr.
  destruct (FS.read sizeof_GlobalSettingsV2 f) as [bs f'] eqn:E.
  assert (bs = take sizeof_GlobalSettingsV2 (drop (FS.position f) (FS.content f))) as Hbs
    by (unfold FS.read in E; injection E; auto).
  cbn [fst] in Hr. rewrite decide_True by lia.
  rewrite <- Hbs. destruct (viewV2 bs).
  repeat split. intros Hrw. apply save_rw, Hrw.
Qed.

(** C10: [loadPreset] on a slot that is out of range, or whose file does
    not exist, or whose file is shorter than the struct, returns false and
    leaves the settings in memory and the file system as they were; and
    whenever it returns false they are as they were. *)
Theorem loadPreset_atomic fuel slot temp s fs :
  (MAX_PRESET_SLOTS <= slot \/
   FS.files fs !! presetPath slot = None \/
   (exists c, FS.files fs !! presetPath slot = Some c /\
              (length c < sizeof_GlobalSettings)%nat) ->
   loadPreset fuel slot temp s fs = Some (false, s, fs)) /\
  (forall s' fs',
     loadPreset fuel slot temp s fs = Some (false, s', fs') -> s' = s /\ fs' = fs).
Proof.
  split.
  - intros H. unfold loadPreset.
    destruct (MAX_PRESET_SLOTS <=? slot) eqn:Hs; [reflexivity|].
    apply Z.leb_gt in Hs. destruct H as [H|[H|(c & Hc & Hl)]]; [lia| |].
    + unfold loadFromSlot, FS.exists_. rewrite H.
      rewrite bool_decide_eq_false_2 by (intros [? ?]; discriminate). reflexivity.
    + unfold loadFromSlot, FS.exists_, FS.open_r. rewrite Hc.
      rewrite bool_decide_eq_true_2 by eauto. cbn [fmap option_fmap option_map].
      pose proof (read_length sizeof_GlobalSettings
                    {| FS.content := c; FS.position := 0 |}) as Hr.
      destruct (FS.read _ _) as [bs f']. cbn [fst FS.content FS.position] in Hr.
      rewrite decide_False by lia. reflexivity.
  - intros s' fs'. unfold loadPreset.
    destruct (MAX_PRESET_SLOTS <=? slot); [intros [= <- <-]; auto|].
    destruct (loadFromSlot slot temp fs) as [[] t].
    + destruct (validate _ _ _) as [[? ?]|]; cbn; [intros [=]|intros [=]].
    + intros [= <- <-]; auto.
Qed.

End WithLayout.

(** *** On the reference layout *)

(** The settings file a version 2 firmware left, read from its start. *)
Lemma migrate_v2_witness :
  let layout := RefLayout.layout in
  let f := Bench.legacyFile in
  (sizeof_GlobalSettingsV2 <= length (FS.content f) - FS.position f)%nat /\
  let v2 := viewV2 (take sizeof_GlobalSettingsV2 (drop (FS.position f) (FS.content f))) in
  let '(ok, _, s', fs') := migrate 2 f Bench.loaded Bench.legacyFS in
  ok = true /\
  Spec.v2Subset (V2.schemaVersion v2) (_data s') = v2 /\
  schemaVersion (_data s') = SETTINGS_SCHEMA_VERSION /\
  freqDependentAmplitude (_data s') = 0 /\
  bootSpeed (_data s') = 3 /\
  fs' = save s' Bench.legacyFS /\
  (FS.mounted_rw Bench.legacyFS = true ->
   FS.files fs' !! _filename = Some (image (_data s'))).
Proof.
  assert (@sizeof_GlobalSettingsV2 RefLayout.layout
          <= length (FS.content Bench.legacyFile) - FS.position Bench.legacyFile)%nat
    as H by (apply Nat.leb_le; vm_compute; reflexivity).
  split; [exact H|].
  exact (migrate_v2 (layout := RefLayout.layout)
           Bench.legacyFile Bench.loaded Bench.legacyFS H).
Defined.

(** The migrated bench file, evaluated: 45 rpm at 68 Hz and the amplitude
    limit of 90 % are carried over, the schema version is 4 and the file
    written has the size of the current struct. *)
Lemma migrate_legacy_eval :
  let layout := RefLayout.layout in
  let '(ok, _, s', fs') := migrate 2 Bench.legacyFile Bench.loaded Bench.legacyFS in
  ok = true /\
  currentSpeed (_data s') = SPEED_45 /\ maxAmplitude (_data s') = 90 /\
  frequency (speeds (_data s') !!! 1%nat) = f32_lit 68 1 /\
  schemaVersion (_data s') = 4 /\
  length <$> FS.files fs' !! _filename = Some sizeof_GlobalSettings.
Proof. vm_compute. repeat split. Qed.

(** Preset 2 cut short after 100 bytes. *)
Lemma loadPreset_atomic_witness :
  let layout := RefLayout.layout in
  (exists c, FS.files Bench.truncatedPresetFS !! presetPath 2 = Some c /\
             (length c < sizeof_GlobalSettings)%nat) /\
  loadPreset 4 2 defaults Bench.loaded Bench.truncatedPresetFS
  = Some (false, Bench.loaded, Bench.truncatedPresetFS).
Proof.
  assert (exists c, FS.files Bench.truncatedPresetFS !! presetPath 2 = Some c /\
                    (length c < @sizeof_GlobalSettings RefLayout.layout)%nat) as H.
  { eexists. split; [vm_compute; reflexivity|].
    apply Nat.ltb_lt. vm_compute. reflexivity. }
  split; [exact H|].
  apply (proj1 (loadPreset_atomic (layout := RefLayout.layout)
                  4 2 defaults Bench.loaded Bench.truncatedPresetFS)).
  right. right. exact H.
Defined.

(** C7 fails on the code: a phase offset of -0.000001 degrees is below 0,
    so the second loop adds 360 once; the sum rounds to 360.0 in [float],
    and [validate] returns with that offset equal to 360, outside
    [0, 360). *)
Lemma validate_tiny_negative_offset :
  let layout := RefLayout.layout in
  let offset s := phaseOffset (speeds (_data s) !!! 0%nat) !!! 1%nat in
  offset Bench.tinyNegativeOffset = f32_lit (-1) 1000000 /\
  (offset ∘ fst) <$> validate 2 Bench.tinyNegativeOffset Bench.blankFS
  = Some (f32_lit 360 1) /\
  ~ Spec.offsetNormal (f32_lit 360 1).
Proof.
  vm_compute. repeat split. intros [_ H]. discriminate H.
Qed.

End SettingsFacts.
